(** * NAMI-RESEARCHER: the knowledge ingestion and retrieval engine

    A shallow embedding of [src/rag/rag_ingestion.py] (class [RAGIngestion]:
    [add_report], [add_multiple_reports], [verify_ingestion],
    [list_ingested_reports]) and of the retriever configuration of
    [rag_tool] in [src/tools_module.py].

    Python values are modelled as follows.
    - [str] is [string]; [len] is [String.length], so the characters are the
      code points below 256.
    - a [dict] with string keys is a [gmap string pyval]; the values that the
      ingestion code stores are [None], booleans, integers and strings.
    - a Python function that can raise and that works on the Chroma
      collection is a computation in the monad [M]: it takes the collection
      (the list of stored documents, oldest first) and returns either the
      raised exception (its [str(e)]) or a value, with the collection it
      leaves behind.
    - what the outside world does during one call (the clock reading, the
      store being unreachable) is an explicit argument of type [Env].
    - the text splitter is an argument of [add_report] and of its callers;
      where the code is run on a concrete report, the splitter is
      [chunker_split_text], which follows the algorithm of the library's
      [RecursiveCharacterTextSplitter]. *)

From Stdlib Require Import ZArith QArith List Ascii String.
From Stdlib Require Import Sorting.Permutation Sorting.Sorted.
From stdpp Require Import gmap strings list pretty.

Local Open Scope string_scope.
Local Open Scope Z_scope.
Local Open Scope list_scope.

(** ** Python values *)

Inductive pyval : Type :=
| VNone
| VBool (b : bool)
| VInt (z : Z)
| VStr (s : string).

Global Instance pyval_eq_dec : EqDecision pyval.
Proof. solve_decision. Defined.

(** Truth value of a Python object ([if x:]). *)
Definition truthy (v : pyval) : bool :=
  match v with
  | VNone => false
  | VBool b => b
  | VInt z => negb (z =? 0)
  | VStr s => negb (String.eqb s "")
  end.

(** Python's [==] on these values: [True == 1] and [False == 0]. *)
Definition py_eqb (a b : pyval) : bool :=
  match a, b with
  | VNone, VNone => true
  | VBool x, VBool y => Bool.eqb x y
  | VInt x, VInt y => x =? y
  | VBool x, VInt y | VInt y, VBool x => (if x then 1 else 0) =? y
  | VStr x, VStr y => String.eqb x y
  | _, _ => false
  end.

(** [d.get(k)]: [None] when the key is absent. *)
Definition dict_get (d : gmap string pyval) (k : string) : pyval :=
  default VNone (d !! k).

(** [d.get(k, dflt)]. *)
Definition dict_get_default (d : gmap string pyval) (k : string) (dflt : pyval) : pyval :=
  default dflt (d !! k).

(** ** Strings *)

(** [str.isspace] on one character, for the code points below 256:
    tab to carriage return, the four information separators, space,
    NEL and the no-break space. *)
Definition isspace (c : ascii) : bool :=
  let n := nat_of_ascii c in
  ((9 <=? n) && (n <=? 13) || (28 <=? n) && (n <=? 32)
   || (n =? 133) || (n =? 160))%nat.

Fixpoint lstrip (s : string) : string :=
  match s with
  | EmptyString => EmptyString
  | String c s' => if isspace c then lstrip s' else s
  end.

(** [rstrip] keeps a character when it is not a space or when something is
    left after it. *)
Fixpoint rstrip (s : string) : string :=
  match s with
  | EmptyString => EmptyString
  | String c s' =>
      match rstrip s' with
      | EmptyString => if isspace c then EmptyString else String c EmptyString
      | r => String c r
      end
  end.

(** [s.strip()] *)
Definition strip (s : string) : string := rstrip (lstrip s).

(** [len(s)] *)
Definition len (s : string) : Z := Z.of_nat (String.length s).

(** [s[:n]] for a non-negative [n]. *)
Definition str_prefix (n : nat) (s : string) : string := String.substring 0 n s.

(** [str(n)] for an integer, as an f-string prints it. *)
Definition str_of_int (z : Z) : string := pretty z.

(** ** Documents and the collection *)

(** [langchain]'s [Document(page_content=..., metadata=...)]. *)
Record Document : Type := mkDocument {
  page_content : string;
  metadata : gmap string pyval
}.

Global Instance Document_eq_dec : EqDecision Document.
Proof. solve_decision. Defined.

(** The [RAGIngestion] object. *)
Record RAGIngestion : Type := mkRAGIngestion {
  rag_dir : string;
  collection_name : string
}.

(** What the outside world does during one call of a method:
    [now_iso] is the value of [datetime.now().isoformat()], and each of the
    three faults, when present, is the message of the exception raised by
    opening the Chroma collection, by [add_documents] (embedding included)
    and by the retriever's [invoke]. *)
Record Env : Type := mkEnv {
  now_iso : string;
  chroma_fault : option string;
  add_fault : option string;
  invoke_fault : option string
}.

(** ** Computations that raise and that write the collection *)

Definition M (A : Type) : Type :=
  list Document -> (string + A) * list Document.

Definition ret {A} (a : A) : M A := fun st => (inr a, st).

Definition raise {A} (e : string) : M A := fun st => (inl e, st).

Definition bind {A B} (m : M A) (k : A -> M B) : M B :=
  fun st =>
    match m st with
    | (inl e, st') => (inl e, st')
    | (inr a, st') => k a st'
    end.

(** [try: body except Exception as e: handler(str(e))]; what the body wrote
    before it raised stays written. *)
Definition try_except {A} (body : M A) (handler : string -> M A) : M A :=
  fun st =>
    match body st with
    | (inl e, st') => handler e st'
    | (inr a, st') => (inr a, st')
    end.

(** A call into a library that raises or returns and leaves the collection
    alone. *)
Definition lift {A} (r : string + A) : M A := fun st => (r, st).

Declare Scope py_scope.
Delimit Scope py_scope with py.
Notation "x <- c1 ;; c2" := (bind c1 (fun x => c2))
  (at level 100, c1 at next level, right associativity) : py_scope.
Notation "c1 ;;; c2" := (bind c1 (fun _ => c2))
  (at level 100, right associativity) : py_scope.

(** [Chroma(persist_directory=..., embedding_function=..., collection_name=...)]:
    opens the collection, or raises when the store cannot be reached. *)
Definition Chroma (env : Env) : M unit :=
  match chroma_fault env with
  | Some e => raise e
  | None => ret tt
  end.

(** [vectorstore.add_documents(documents)]: one bulk insert of the batch at
    the end of the collection, or an exception. The documents are appended
    with the metadata they are given. Chroma keeps the entries whose value
    is a string, an integer or a boolean, as the entries that [add_report]
    writes itself are; it does not keep an entry whose value is [None], so
    what is said of a stored entry is meant for a value that is not
    [None]. *)
Definition add_documents (env : Env) (documents : list Document) : M unit :=
  match add_fault env with
  | Some e => raise e
  | None => fun st => (inr tt, st ++ documents)
  end.

(** ** [RAGIngestion.add_report] *)

Definition NL : string := String "010"%char EmptyString.

(** The separators handed to [RecursiveCharacterTextSplitter]:
    ["\n## ", "\n### ", "\n\n", "\n", " ", ""]. *)
Definition separators : list string :=
  [NL +:+ "## "; NL +:+ "### "; NL +:+ NL; NL; " "; ""].

Definition default_chunk_size : Z := 1000.
Definition default_chunk_overlap : Z := 200.

(** The result returned when the content is rejected as too short. *)
Definition too_short_result (report_content topic : string) : gmap string pyval :=
  {[ "success" := VBool false;
     "error" := VStr "Report content is too short or empty (minimum 100 characters required)";
     "topic" := VStr topic;
     "message" := VStr ("Skipped RAG ingestion: report too short ("
                        +:+ str_of_int (len report_content) +:+ " chars)") ]}.

(** The result returned when no chunk is left after filtering. *)
Definition no_chunks_result (topic : string) : gmap string pyval :=
  {[ "success" := VBool false;
     "error" := VStr "No valid text chunks could be generated from report";
     "topic" := VStr topic;
     "message" := VStr "Report could not be split into valid chunks" ]}.

(** The result returned on success. *)
Definition added_result (self : RAGIngestion) (topic : string) (n : Z) : gmap string pyval :=
  {[ "success" := VBool true;
     "chunks_added" := VInt n;
     "topic" := VStr topic;
     "collection" := VStr (collection_name self);
     "message" := VStr ("Added " +:+ str_of_int n +:+ " chunks to knowledge base") ]}.

(** The result built by the [except Exception as e] handler. *)
Definition failed_result (topic e : string) : gmap string pyval :=
  {[ "success" := VBool false;
     "error" := VStr e;
     "topic" := VStr topic;
     "message" := VStr ("Failed to add report: " +:+ e) ]}.

(** [doc_metadata]: the four defaults, then [doc_metadata.update(metadata)]
    when [metadata] is a non-empty dict. *)
Definition doc_metadata_of (self : RAGIngestion) (env : Env) (topic : string)
    (metadata : option (gmap string pyval)) : gmap string pyval :=
  let doc_metadata : gmap string pyval :=
    {[ "topic" := VStr topic;
       "source" := VStr "research_report";
       "created_at" := VStr (now_iso env);
       "collection" := VStr (collection_name self) ]} in
  match metadata with
  | Some m => if decide (m = ∅) then doc_metadata else m ∪ doc_metadata
  | None => doc_metadata
  end.

(** [[chunk.strip() for chunk in chunks if chunk.strip()]] *)
Definition valid_chunks (chunks : list string) : list string :=
  strip <$> filter (λ chunk, strip chunk ≠ "") chunks.

(** The documents built by the [enumerate] loop. *)
Definition make_documents (doc_metadata : gmap string pyval) (chunks : list string)
    : list Document :=
  imap (λ i chunk,
          mkDocument chunk
            (<["total_chunks" := VInt (Z.of_nat (length chunks))]>
               (<["chunk_id" := VInt (Z.of_nat i)]> doc_metadata)))
       chunks.

Section Ingestion.

(** [RecursiveCharacterTextSplitter(chunk_size, chunk_overlap,
    length_function=len, separators).split_text(text)], a function of the
    [langchain] library: it raises (left) or returns the chunks. *)
Variable split_text : Z -> Z -> list string -> string -> string + list string.

Definition add_report (self : RAGIngestion) (env : Env)
    (report_content topic : string) (metadata : option (gmap string pyval))
    (chunk_size chunk_overlap : Z) : M (gmap string pyval) :=
  try_except
    (if String.eqb report_content "" || (len (strip report_content) <? 100)
     then ret (too_short_result report_content topic)
     else
       let doc_metadata := doc_metadata_of self env topic metadata in
       (chunks <- lift (split_text chunk_size chunk_overlap separators report_content) ;;
        let chunks := valid_chunks chunks in
        match chunks with
        | [] => ret (no_chunks_result topic)
        | _ :: _ =>
            let documents := make_documents doc_metadata chunks in
            (Chroma env ;;;
             add_documents env documents ;;;
             ret (added_result self topic (Z.of_nat (length chunks))))
        end))%py
    (fun e => ret (failed_result topic e)).

(** ** [RAGIngestion.add_multiple_reports] *)

(** One element of [reports]: a dict in which each of the keys ['content'],
    ['topic'] and ['metadata'] is present or not. *)
Record Report : Type := mkReport {
  rep_content : option string;
  rep_topic : option string;
  rep_metadata : option (gmap string pyval)
}.

(** [results = {"successful": .., "failed": .., "details": [..]}] *)
Record BatchResults : Type := mkBatchResults {
  successful : Z;
  failed : Z;
  details : list (gmap string pyval)
}.

(** [d[k]]: raises [KeyError(k)] when the key is absent. *)
Definition getitem {A} (o : option A) (k : string) : M A :=
  match o with
  | Some a => ret a
  | None => raise ("'" +:+ k +:+ "'")
  end.

(** The body of [for report in reports]; each report comes with what the
    outside world does during its [add_report] call. *)
Fixpoint add_multiple_reports_loop (self : RAGIngestion)
    (reports : list (Env * Report)) (results : BatchResults) : M BatchResults :=
  match reports with
  | [] => ret results
  | (env, report) :: reports' =>
      (report_content <- getitem (rep_content report) "content" ;;
       topic <- getitem (rep_topic report) "topic" ;;
       let metadata := default ∅ (rep_metadata report) in
       result <- add_report self env report_content topic (Some metadata)
                   default_chunk_size default_chunk_overlap ;;
       success <- getitem (result !! "success") "success" ;;
       let results :=
         if truthy success
         then mkBatchResults (successful results + 1) (failed results) (details results)
         else mkBatchResults (successful results) (failed results + 1) (details results) in
       let results :=
         mkBatchResults (successful results) (failed results)
                        (details results ++ [result]) in
       add_multiple_reports_loop self reports' results)%py
  end.

Definition add_multiple_reports (self : RAGIngestion)
    (reports : list (Env * Report)) : M BatchResults :=
  add_multiple_reports_loop self reports (mkBatchResults 0 0 []).

End Ingestion.

(** ** [RAGIngestion.verify_ingestion] and [RAGIngestion.list_ingested_reports] *)

Section Retrieval.

(** The order in which the vector store ranks the stored documents for a
    query text, most similar first: the work of the embedding model and of
    Chroma's distance, both outside the repository. *)
Variable rank : string -> list Document -> list Document.

(** [vectorstore.as_retriever(search_kwargs={"k": k}).invoke(query)]: the
    [k] best documents of the ranking, or an exception; a read. *)
Definition retriever_invoke (env : Env) (k : nat) (query : string) : M (list Document) :=
  match invoke_fault env with
  | Some e => raise e
  | None => fun st => (inr (take k (rank query st)), st)
  end.

(** [doc.metadata.get("topic") == topic] *)
Definition has_topic (topic : string) (doc : Document) : Prop :=
  dict_get (metadata doc) "topic" = VStr topic.

Global Instance has_topic_dec topic doc : Decision (has_topic topic doc).
Proof. unfold has_topic. apply _. Defined.

(** The result of a verification that reached the store. *)
Definition verify_result (topic_docs docs : list Document) : gmap string pyval :=
  {[ "found" := VBool (0 <? Z.of_nat (length topic_docs));
     "chunks_found" := VInt (Z.of_nat (length topic_docs));
     "total_results" := VInt (Z.of_nat (length docs));
     "sample_content" :=
       match topic_docs with
       | doc :: _ => VStr (str_prefix 200 (page_content doc))
       | [] => VNone
       end ]}.

Definition verify_ingestion (self : RAGIngestion) (env : Env)
    (topic : string) (query : option string) : M (gmap string pyval) :=
  try_except
    (Chroma env ;;;
     let search_query :=
       match query with
       | Some q => if String.eqb q "" then topic else q
       | None => topic
       end in
     docs <- retriever_invoke env 3 search_query ;;
     let topic_docs := filter (has_topic topic) docs in
     ret (verify_result topic_docs docs))%py
    (fun e => ret {[ "found" := VBool false; "error" := VStr e ]}).

(** [topic in topics] for the dict [topics], kept in insertion order. *)
Definition topic_in (topic : pyval) (topics : list (pyval * gmap string pyval)) : bool :=
  existsb (fun kv => py_eqb (fst kv) topic) topics.

(** The body of [for doc in docs] of [list_ingested_reports]. *)
Definition record_topic (topics : list (pyval * gmap string pyval)) (doc : Document)
    : list (pyval * gmap string pyval) :=
  let topic := dict_get (metadata doc) "topic" in
  if truthy topic && negb (topic_in topic topics)
  then topics ++ [(topic,
                   {[ "topic" := topic;
                      "created_at" := dict_get (metadata doc) "created_at";
                      "chunks" := dict_get_default (metadata doc) "total_chunks" (VInt 1) ]})]
  else topics.

Definition list_ingested_reports (self : RAGIngestion) (env : Env)
    : M (list (gmap string pyval)) :=
  try_except
    (Chroma env ;;;
     docs <- retriever_invoke env 100 "research" ;;
     let topics := fold_left record_topic docs [] in
     ret (snd <$> topics))%py
    (fun e => ret []).

End Retrieval.

(** ** The Chunker, as the specification describes it *)

Inductive ChunkerError : Type :=
| EmptyInputError
| InvalidSplitConfig.

(** [s[n:]] *)
Fixpoint str_drop (n : nat) (s : string) : string :=
  match n, s with
  | O, _ => s
  | S n', String _ s' => str_drop n' s'
  | S _, EmptyString => EmptyString
  end.

(** The last [n] characters of [s] (all of [s] when it is shorter). *)
Definition str_suffix (n : nat) (s : string) : string :=
  str_drop (String.length s - n) s.

(** The units of [text] at one boundary tier: [text] is cut in front of each
    occurrence of the separator [sep], so the units, put together again, give
    [text] back. [cur] is the unit being read. *)
Fixpoint cut_at_go (sep cur text : string) : list string :=
  match text with
  | EmptyString => [cur]
  | String c rest =>
      if String.prefix sep text && negb (String.eqb cur "")
      then cur :: cut_at_go sep (String c EmptyString) rest
      else cut_at_go sep (cur +:+ String c EmptyString) rest
  end.

Definition cut_at (sep text : string) : list string := cut_at_go sep "" text.

(** Hard cut of a text without any boundary left: chunks of [chunk_size]
    characters, each beginning [overlap] characters before the end of the one
    before it. [fuel] bounds the number of chunks. *)
Fixpoint hard_cut_go (fuel chunk_size overlap : nat) (text : string) : list string :=
  match fuel with
  | O => []
  | S fuel' =>
      if (String.length text <=? chunk_size)%nat then [text]
      else str_prefix chunk_size text
             :: hard_cut_go fuel' chunk_size overlap (str_drop (chunk_size - overlap) text)
  end.

Definition hard_cut (chunk_size overlap : nat) (text : string) : list string :=
  hard_cut_go (String.length text) chunk_size overlap text.

(** Greedy accumulation of the units of one tier. [chunk] is the chunk under
    construction (empty when none is), [prev] the chunk produced last. A unit
    longer than [chunk_size] is handed to the finer tiers; a unit that does
    not fit any more closes the chunk, and the next chunk begins [overlap]
    characters before the end of the closed one (fewer when the unit would
    not fit otherwise). *)
Fixpoint accumulate (chunk_size overlap : nat) (finer : string -> list string)
    (prev chunk : string) (units : list string) : list string :=
  let flush := if String.eqb chunk "" then [] else [chunk] in
  match units with
  | [] => flush
  | u :: units' =>
      let n := String.length u in
      if (chunk_size <? n)%nat then
        let cs := finer u in
        flush ++ cs ++ accumulate chunk_size overlap finer (List.last cs prev) "" units'
      else if String.eqb chunk "" then
        accumulate chunk_size overlap finer prev
          (str_suffix (Nat.min overlap (chunk_size - n)) prev +:+ u) units'
      else if (String.length chunk + n <=? chunk_size)%nat then
        accumulate chunk_size overlap finer prev (chunk +:+ u) units'
      else
        chunk :: accumulate chunk_size overlap finer chunk
                   (str_suffix (Nat.min overlap (chunk_size - n)) chunk +:+ u) units'
  end.

(** The tiers, coarse to fine; the empty separator is the character tier. *)
Fixpoint split_tiers (tiers : list string) (chunk_size overlap : nat) (text : string)
    : list string :=
  match tiers with
  | [] => hard_cut chunk_size overlap text
  | sep :: finer =>
      if String.eqb sep "" then hard_cut chunk_size overlap text
      else accumulate chunk_size overlap (split_tiers finer chunk_size overlap)
             "" "" (cut_at sep text)
  end.

(** Modelled from the spec: the Chunker [split(text, chunk_size, overlap)] of
    section 4.1, whose code ([RecursiveCharacterTextSplitter]) is not in the
    repository. In the order of the section: [overlap >= chunk_size] is a
    configuration error; a text that is empty after trimming is an
    [EmptyInputError]; a text of length at most [chunk_size] is returned as
    one trimmed chunk; a longer text is split at the coarsest boundary first,
    the finer ones being used only for a unit that exceeds [chunk_size], and
    the empty or whitespace-only chunks are dropped. The boundary tiers are
    the separators that [add_report] passes. Where the section leaves a
    choice (the overlap of a chunk whose first unit would not fit behind the
    full overlap), [accumulate] says which one is taken. *)
Definition split_with (tiers : list string) (text : string) (chunk_size overlap : Z)
    : ChunkerError + list string :=
  if chunk_size <=? overlap then inl InvalidSplitConfig
  else if String.eqb (strip text) "" then inl EmptyInputError
  else if len text <=? chunk_size then inr [strip text]
  else inr (filter (λ chunk, strip chunk ≠ "")
              (split_tiers tiers (Z.to_nat chunk_size) (Z.to_nat overlap) text)).

Definition split (text : string) (chunk_size overlap : Z) : ChunkerError + list string :=
  split_with separators text chunk_size overlap.

(** ** The splitter that [add_report] calls *)

(** [RecursiveCharacterTextSplitter] belongs to the [langchain_text_splitters]
    library and not to the repository. The definitions of this part follow
    the library's code for the arguments that [add_report] passes:
    [keep_separator] has its default [True], the separators are literal
    ([is_separator_regex=False]), the length is [len] and chunks are
    stripped ([strip_whitespace=True]). They give the runs of [add_report]
    below a splitter to run on; the theorems on [add_report] hold for any
    splitter. *)

(** [old in s] *)
Fixpoint str_contains (old s : string) : bool :=
  String.prefix old s ||
  match s with
  | EmptyString => false
  | String _ s' => str_contains old s'
  end.

(** The message of the [ValueError] that the constructor raises for an
    overlap above the chunk size. *)
Definition larger_overlap_error (chunk_size chunk_overlap : Z) : string :=
  "Got a larger chunk overlap (" +:+ str_of_int chunk_overlap
  +:+ ") than chunk size (" +:+ str_of_int chunk_size +:+ "), should be smaller.".

(** [TextSplitter.__init__]: the three checks of the configuration, in the
    order of the code. The third one is strict: an overlap equal to the
    chunk size is accepted. *)
Definition TextSplitter__init__ (chunk_size chunk_overlap : Z) : string + unit :=
  if chunk_size <=? 0
  then inl ("chunk_size must be > 0, got " +:+ str_of_int chunk_size)
  else if chunk_overlap <? 0
  then inl ("chunk_overlap must be >= 0, got " +:+ str_of_int chunk_overlap)
  else if chunk_size <? chunk_overlap
  then inl (larger_overlap_error chunk_size chunk_overlap)
  else inr tt.

(** [re.split("(" + re.escape(separator) + ")", text)] for a non-empty
    separator, each separator being put in front of the piece that follows
    it: the occurrences are taken from left to right and do not overlap.
    [cur] is the piece being read, [skip] counts the characters of an
    occurrence still to be passed. *)
Fixpoint split_keeping_go (separator cur : string) (skip : nat) (text : string)
    : list string :=
  match text with
  | EmptyString => [cur]
  | String c rest =>
      match skip with
      | S skip' => split_keeping_go separator (cur +:+ String c EmptyString) skip' rest
      | O =>
          if String.prefix separator text
          then cur :: split_keeping_go separator (String c EmptyString)
                        (String.length separator - 1) rest
          else split_keeping_go separator (cur +:+ String c EmptyString) 0 rest
      end
  end.

(** [_split_text_with_regex(text, separator, keep_separator=True)]: the
    pieces, or the characters of the text for the empty separator, without
    the empty strings. *)
Definition _split_text_with_regex (text separator : string) : list string :=
  filter (λ s, s ≠ "")
    (if String.eqb separator ""
     then (λ c, String c EmptyString) <$> list_ascii_of_string text
     else split_keeping_go separator "" 0 text).

(** [_join_docs(docs, "")]: the pieces put together and stripped, or [None]
    when nothing is left. *)
Definition _join_docs (docs : list string) : option string :=
  let text := strip (String.concat "" docs) in
  if String.eqb text "" then None else Some text.

(** The [while] loop of [_merge_splits]: pieces leave the front of
    [current_doc] as long as they are more than the overlap, or the piece
    [d] of length [_len] still does not fit. [total] is the length of
    [current_doc], so it is 0 when [current_doc] is empty and the loop stops
    there (the overlap is not negative). *)
Fixpoint drop_front (chunk_size chunk_overlap _len total : Z) (current_doc : list string)
    : Z * list string :=
  match current_doc with
  | [] => (total, [])
  | first :: rest =>
      if (chunk_overlap <? total) || ((chunk_size <? total + _len) && (0 <? total))
      then drop_front chunk_size chunk_overlap _len (total - len first) rest
      else (total, current_doc)
  end.

(** The [for d in splits] loop of [_merge_splits(splits, "")]; the separator
    is empty because the pieces keep theirs. *)
Fixpoint _merge_splits_go (chunk_size chunk_overlap : Z) (docs current_doc : list string)
    (total : Z) (splits : list string) : list string :=
  match splits with
  | [] => docs ++ option_list (_join_docs current_doc)
  | d :: splits' =>
      let _len := len d in
      let '(docs, total, current_doc) :=
        if chunk_size <? total + _len then
          match current_doc with
          | [] => (docs, total, current_doc)
          | _ :: _ =>
              let docs := docs ++ option_list (_join_docs current_doc) in
              let '(total, current_doc) :=
                drop_front chunk_size chunk_overlap _len total current_doc in
              (docs, total, current_doc)
          end
        else (docs, total, current_doc) in
      _merge_splits_go chunk_size chunk_overlap docs (current_doc ++ [d])
        (total + _len) splits'
  end.

Definition _merge_splits (chunk_size chunk_overlap : Z) (splits : list string)
    : list string :=
  _merge_splits_go chunk_size chunk_overlap [] [] 0 splits.

(** The [for s in splits] loop of [_split_text]: the pieces shorter than
    [chunk_size] are gathered in [_good_splits] and merged; a longer piece is
    split with the separators that are left ([split_finer]) or, when there is
    none, becomes a chunk as it is. *)
Fixpoint collect_splits (chunk_size chunk_overlap : Z)
    (split_finer : option (string -> list string))
    (_good_splits splits : list string) : list string :=
  let merged :=
    match _good_splits with
    | [] => []
    | _ :: _ => _merge_splits chunk_size chunk_overlap _good_splits
    end in
  match splits with
  | [] => merged
  | s :: splits' =>
      if len s <? chunk_size
      then collect_splits chunk_size chunk_overlap split_finer (_good_splits ++ [s]) splits'
      else merged
           ++ match split_finer with
              | None => [s]
              | Some split_finer => split_finer s
              end
           ++ collect_splits chunk_size chunk_overlap split_finer [] splits'
  end.

(** [RecursiveCharacterTextSplitter._split_text(text, separators)]: the
    separator used is the first one that is empty or occurs in the text (the
    last one when there is none), and the separators after it serve for the
    pieces that are too long. *)
Fixpoint _split_text (chunk_size chunk_overlap : Z) (separators : list string)
    (text : string) : list string :=
  match separators with
  | [] => []
  | _s :: new_separators =>
      let split_finer :=
        match new_separators with
        | [] => None
        | _ :: _ => Some (_split_text chunk_size chunk_overlap new_separators)
        end in
      if String.eqb _s "" then
        collect_splits chunk_size chunk_overlap None [] (_split_text_with_regex text _s)
      else if str_contains _s text then
        collect_splits chunk_size chunk_overlap split_finer []
          (_split_text_with_regex text _s)
      else
        match new_separators with
        | [] =>
            collect_splits chunk_size chunk_overlap None []
              (_split_text_with_regex text _s)
        | _ :: _ => _split_text chunk_size chunk_overlap new_separators text
        end
  end.

(** [RecursiveCharacterTextSplitter(chunk_size, chunk_overlap,
    length_function=len, separators).split_text(text)]: the constructor
    raises or the text is split; an empty list of separators stands for the
    library's default. *)
Definition chunker_split_text (chunk_size chunk_overlap : Z) (seps : list string)
    (text : string) : string + list string :=
  match TextSplitter__init__ chunk_size chunk_overlap with
  | inl e => inl e
  | inr _ =>
      let seps :=
        match seps with
        | [] => [NL +:+ NL; NL; " "; ""]
        | _ :: _ => seps
        end in
      inr (_split_text chunk_size chunk_overlap seps text)
  end.

(** [ceil(a / b)] for a positive [b]. *)
Definition ceil_div (a b : Z) : Z := (a + b - 1) / b.

(** ** The Vector Store queries, as the specification describes them *)

Section VectorStore.

(** The embedding vectors, the Embedding Client [embed], the relevance
    [relevance candidate query] of a stored vector for a query vector and
    the similarity of two stored vectors: all computed outside the
    repository (the embedding model and Chroma's distance). *)
Variable Vec : Type.
Variable embed : string -> Vec.
Variable relevance : Vec -> Vec -> Q.
Variable similarity : Vec -> Vec -> Q.

(** The vector stored with a chunk. *)
Definition vector_of (doc : Document) : Vec := embed (page_content doc).

(** The relevance of a stored chunk for a query vector. *)
Definition relevance_of (query_vector : Vec) (doc : Document) : Q :=
  relevance (vector_of doc) query_vector.

(** [x] may be ranked before [y]: it is at least as relevant. *)
Definition before (query_vector : Vec) (x y : Document) : Prop :=
  (relevance_of query_vector y <= relevance_of query_vector x)%Q.

(** Insertion of one document into a list ranked by descending relevance;
    among equally relevant documents the one stored first stays first. *)
Fixpoint insert_ranked (query_vector : Vec) (doc : Document) (ranked : list Document)
    : list Document :=
  match ranked with
  | [] => [doc]
  | x :: ranked' =>
      if Qle_bool (relevance_of query_vector x) (relevance_of query_vector doc)
      then doc :: x :: ranked'
      else x :: insert_ranked query_vector doc ranked'
  end.

(** The whole collection in descending relevance. *)
Definition rank_by_relevance (query_vector : Vec) (store : list Document)
    : list Document :=
  foldr (insert_ranked query_vector) [] store.

(** Modelled from the spec: [similarity_search(query_vector, k)] of section
    4.3 (Chroma, not in the repository): the [k] stored chunks of highest
    relevance, in descending relevance. *)
Definition similarity_search (query_vector : Vec) (k : nat) (store : list Document)
    : list Document :=
  take k (rank_by_relevance query_vector store).

Definition q_max (a b : Q) : Q := if Qle_bool a b then b else a.

(** [max_similarity(candidate, already_selected)]; no penalty while nothing
    is selected. *)
Definition max_similarity (candidate : Vec) (selected : list Document) : Q :=
  match selected with
  | [] => 0%Q
  | s :: selected' =>
      fold_left (fun m x => q_max m (similarity candidate (vector_of x)))
                selected' (similarity candidate (vector_of s))
  end.

(** [lambda * relevance(candidate, query)
     - (1 - lambda) * max_similarity(candidate, already_selected)] *)
Definition mmr_score (lambda : Q) (query_vector : Vec) (selected : list Document)
    (candidate : Document) : Q :=
  (lambda * relevance_of query_vector candidate
   - (1 - lambda) * max_similarity (vector_of candidate) selected)%Q.

(** The candidate of greatest score, the first one among equals, with the
    candidates that remain. *)
Fixpoint pick_best (score : Document -> Q) (candidates : list Document)
    : option (Document * list Document) :=
  match candidates with
  | [] => None
  | c :: candidates' =>
      match pick_best score candidates' with
      | None => Some (c, [])
      | Some (b, rest) =>
          if Qle_bool (score b) (score c) then Some (c, candidates')
          else Some (b, c :: rest)
      end
  end.

(** The greedy selection: until [k] are chosen or the candidates are
    exhausted. *)
Fixpoint mmr_select (k : nat) (lambda : Q) (query_vector : Vec)
    (candidates selected : list Document) : list Document :=
  match k with
  | O => []
  | S k' =>
      match pick_best (mmr_score lambda query_vector selected) candidates with
      | None => []
      | Some (best, rest) =>
          best :: mmr_select k' lambda query_vector rest (selected ++ [best])
      end
  end.

(** Modelled from the spec: [mmr_search(query_vector, k, fetch_k, lambda)] of
    section 4.3 (Chroma, not in the repository): the [fetch_k] nearest
    candidates by similarity first, then the greedy selection of [k] of
    them. *)
Definition mmr_search (query_vector : Vec) (k fetch_k : nat) (lambda : Q)
    (store : list Document) : list Document :=
  mmr_select k lambda query_vector (similarity_search query_vector fetch_k store) [].

(** The ranking behind [retriever_invoke] when the store is this one. *)
Definition rank_by_query (query : string) (store : list Document) : list Document :=
  rank_by_relevance (embed query) store.

(** The retriever of [rag_tool]: [search_type="mmr"] with [k = 5],
    [fetch_k = 20] and [lambda_mult = 0.7]. *)
Definition rag_tool_retrieve (question : string) (store : list Document)
    : list Document :=
  mmr_search (embed question) 5 20 (7 # 10)%Q store.

End VectorStore.

(** ** What one call of [add_report] returns and writes *)

(** The value that a computation returned, when it did not raise. *)
Definition returned {A} (r : (string + A) * list Document) : option A :=
  match r.1 with
  | inr a => Some a
  | inl _ => None
  end.

Section Outcome.

Variable split_text : Z -> Z -> list string -> string -> string + list string.

(** The result of [add_report] and the documents it adds to the collection,
    read off the branches of its body. *)
Definition ingest_outcome (self : RAGIngestion) (env : Env)
    (report_content topic : string) (metadata : option (gmap string pyval))
    (chunk_size chunk_overlap : Z) : gmap string pyval * list Document :=
  if String.eqb report_content "" || (len (strip report_content) <? 100)
  then (too_short_result report_content topic, [])
  else
    match split_text chunk_size chunk_overlap separators report_content with
    | inl e => (failed_result topic e, [])
    | inr chunks =>
        match valid_chunks chunks with
        | [] => (no_chunks_result topic, [])
        | c :: cs =>
            match chroma_fault env, add_fault env with
            | Some e, _ => (failed_result topic e, [])
            | None, Some e => (failed_result topic e, [])
            | None, None =>
                (added_result self topic (Z.of_nat (length (c :: cs))),
                 make_documents (doc_metadata_of self env topic metadata) (c :: cs))
            end
        end
    end.

(** The [add_report] call that [add_multiple_reports] makes for one
    report. *)
Definition add_one_report (self : RAGIngestion) (er : Env * Report)
    : M (gmap string pyval) :=
  (report_content <- getitem (rep_content er.2) "content" ;;
   topic <- getitem (rep_topic er.2) "topic" ;;
   add_report split_text self er.1 report_content topic
     (Some (default ∅ (rep_metadata er.2)))
     default_chunk_size default_chunk_overlap)%py.

End Outcome.

(** A report dict that has the keys ['content'] and ['topic']. *)
Definition has_content_and_topic (report : Report) : Prop :=
  is_Some (rep_content report) ∧ is_Some (rep_topic report).

(** [result["success"]] is true. *)
Definition succeeded (result : gmap string pyval) : Prop :=
  result !! "success" = Some (VBool true).

Global Instance succeeded_dec result : Decision (succeeded result).
Proof. unfold succeeded. apply _. Defined.

(** ** What one retrieval call meets *)

(** The exception met by a method that opens the collection and then queries
    it, when there is one. *)
Definition store_fault (env : Env) : option string :=
  match chroma_fault env with
  | Some e => Some e
  | None => invoke_fault env
  end.

(** [query or topic] *)
Definition search_query_of (topic : string) (query : option string) : string :=
  match query with
  | Some q => if String.eqb q "" then topic else q
  | None => topic
  end.

(** ** A store and some reports to run the code on *)

(** A one-dimensional embedding: a text is embedded as its length, and the
    relevance of a stored vector for a query is the negated distance. *)
Definition length_embed (s : string) : Z := len s.

Definition nearness (v q : Z) : Q := inject_Z (- Z.abs (v - q)).

Definition length_rank : string -> list Document -> list Document :=
  rank_by_query Z length_embed nearness.

Fixpoint str_repeat (n : nat) (s : string) : string :=
  match n with
  | O => ""
  | S n' => s +:+ str_repeat n' s
  end.

Definition rag0 : RAGIngestion := mkRAGIngestion "./knowledge" "research_reports".

Definition env_ok : Env := mkEnv "2025-01-01T10:00:00" None None None.

Definition env_unreachable : Env :=
  mkEnv "2025-01-01T10:00:00" (Some "Could not connect to the vector store") None None.

(** 120 characters. *)
Definition report_b : string := str_repeat 20 "beta. ".

(** 420 characters. *)
Definition report_a : string := str_repeat 60 "alpha. ".

(** The collection after three reports on the topic B. *)
Definition store_b : list Document :=
  (add_report chunker_split_text rag0 env_ok report_b "B" None 1000 200
     (add_report chunker_split_text rag0 env_ok report_b "B" None 1000 200
        (add_report chunker_split_text rag0 env_ok report_b "B" None 1000 200 []).2).2).2.

(** Three reports, the second one with an empty content. *)
Definition batch0 : list (Env * Report) :=
  [ (env_ok, mkReport (Some report_a) (Some "A") None);
    (env_ok, mkReport (Some "") (Some "empty") None);
    (env_ok, mkReport (Some report_b) (Some "B") (Some {[ "author" := VStr "nami" ]})) ].

(** A text without any whitespace character: a single unbroken word. *)
Fixpoint unbroken (s : string) : bool :=
  match s with
  | EmptyString => true
  | String c s' => negb (isspace c) && unbroken s'
  end.

(** 1500 characters. *)
Definition report_long : string := str_repeat 300 "abcd ".

(** The collection after a report on the topic B and one on the topic A. *)
Definition store_ab : list Document :=
  (add_report chunker_split_text rag0 env_ok report_long "A" None 1000 200
     (add_report chunker_split_text rag0 env_ok report_b "B" None 1000 200 []).2).2.

(** ** [_truncate_output] of [src/tools_module.py] *)

Definition MAX_TOOL_OUTPUT_CHARS : Z := 8000.

(** [s[:n]], with Python's reading of a negative [n]: counted from the end. *)
Definition py_slice_to (n : Z) (s : string) : string :=
  if 0 <=? n then str_prefix (Z.to_nat n) s
  else str_prefix (Z.to_nat (len s + n)) s.

(** The note that replaces the text cut off. *)
Definition truncation_note (max_chars : Z) : string :=
  NL +:+ NL +:+ "... [Output truncated at " +:+ str_of_int max_chars +:+ " characters]".

Definition _truncate_output (text : string) (max_chars : Z) : string :=
  if len text <=? max_chars then text
  else py_slice_to max_chars text +:+ truncation_note max_chars.

(** ** [fix_markdown_hierarchy] of [src/utils/markdown_render.py] *)

(** [s.split("\n")] *)
Fixpoint split_lines (s : string) : list string :=
  match s with
  | EmptyString => [EmptyString]
  | String c s' =>
      if Ascii.eqb c "010" then EmptyString :: split_lines s'
      else
        match split_lines s' with
        | line :: lines => String c line :: lines
        | [] => [String c EmptyString]
        end
  end.

(** ["\n".join(lines)] *)
Fixpoint join_lines (lines : list string) : string :=
  match lines with
  | [] => EmptyString
  | [line] => line
  | line :: lines' => line +:+ NL +:+ join_lines lines'
  end.

(** [s.lstrip("#")] *)
Fixpoint lstrip_hash (s : string) : string :=
  match s with
  | EmptyString => EmptyString
  | String c s' => if Ascii.eqb c "#" then lstrip_hash s' else s
  end.

(** [s.startswith("#")] *)
Definition startswith_hash (s : string) : bool :=
  match s with
  | String c _ => Ascii.eqb c "#"
  | EmptyString => false
  end.

(** [line.strip().startswith("#")] *)
Definition is_heading (line : string) : bool := startswith_hash (strip line).

(** [len(line) - len(line.lstrip("#"))] *)
Definition heading_level (line : string) : Z := len line - len (lstrip_hash line).

(** The [for] loop: it stops at the first line that is a heading, which it
    rewrites when its level is above 1; [None] when the loop ends without
    having found a heading. *)
Fixpoint fix_first_heading (lines : list string) : option (list string) :=
  match lines with
  | [] => None
  | line :: lines' =>
      if is_heading line then
        Some ((if 1 <? heading_level line
               then "# " +:+ strip (lstrip_hash line)
               else line) :: lines')
      else cons line <$> fix_first_heading lines'
  end.

Definition fix_markdown_hierarchy (markdown_text : string) : string :=
  let lines := split_lines markdown_text in
  match fix_first_heading lines with
  | Some lines' => join_lines lines'
  | None => join_lines (("# Research Report" +:+ NL) :: lines)
  end.

(** ** [RAGIngestion.__init__] and [auto_ingest_report] *)

(** What the process and the machine give to the constructor: the value of
    the environment variable [RAG_DIR] and, when present, the message of the
    exception raised by [os.makedirs] and by the loading of the embedding
    model. *)
Record InitEnv : Type := mkInitEnv {
  getenv_RAG_DIR : option string;
  makedirs_fault : option string;
  embeddings_fault : option string
}.

(** [x or y] on two optional strings: [x] unless it is [None] or empty. *)
Definition str_or (x y : option string) : option string :=
  match x with
  | Some s => if String.eqb s "" then y else x
  | None => y
  end.

Definition RAG_DIR_not_configured : string :=
  "RAG_DIR not configured. Set RAG_DIR environment variable or pass rag_dir parameter.".

(** [RAGIngestion(rag_dir, collection_name)]: the object, or the exception
    raised. *)
Definition RAGIngestion__init__ (ienv : InitEnv) (rag_dir : option string)
    (collection_name : string) : string + RAGIngestion :=
  match str_or rag_dir (getenv_RAG_DIR ienv) with
  | None => inl RAG_DIR_not_configured
  | Some dir =>
      if String.eqb dir "" then inl RAG_DIR_not_configured
      else
        match makedirs_fault ienv with
        | Some e => inl e
        | None =>
            match embeddings_fault ienv with
            | Some e => inl e
            | None => inr (mkRAGIngestion dir collection_name)
            end
        end
  end.

(** The entries of the [state] dict that [auto_ingest_report] reads, each
    one absent or present; [confidence_scores] is given by its [str()]. *)
Record StateView : Type := mkStateView {
  state_quality_score : option pyval;
  state_confidence_scores : option string;
  state_iteration_count : option pyval;
  state_refinement_count : option pyval
}.

(** The metadata prepared from [state]; [None] stands for a [state] that is
    [None] or an empty dict. *)
Definition state_metadata (state : option StateView) : gmap string pyval :=
  match state with
  | None => ∅
  | Some s =>
      <["refinement_count" := default (VInt 0) (state_refinement_count s)]>
        (<["iteration_count" := default (VInt 0) (state_iteration_count s)]>
           (<["confidence_scores" := VStr (default "{}" (state_confidence_scores s))]>
              (<["quality_score" := default VNone (state_quality_score s)]> ∅)))
  end.

Section AutoIngest.

Variable split_text : Z -> Z -> list string -> string -> string + list string.

Definition auto_ingest_report (ienv : InitEnv) (env : Env)
    (report_content topic : string) (state : option StateView)
    (rag_dir : option string) : M (gmap string pyval) :=
  try_except
    (ingestion <- lift (RAGIngestion__init__ ienv rag_dir "research_reports") ;;
     let metadata := state_metadata state in
     result <- add_report split_text ingestion env report_content topic (Some metadata)
                 default_chunk_size default_chunk_overlap ;;
     ret result)%py
    (fun e => ret {[ "success" := VBool false; "error" := VStr e ]}).

End AutoIngest.

(** A text without a newline character: one line. *)
Fixpoint no_newline (s : string) : bool :=
  match s with
  | EmptyString => true
  | String c s' => negb (Ascii.eqb c "010") && no_newline s'
  end.

(** The topic that [list_ingested_reports] reads from a document, and the
    entry that it records for it. *)
Definition topic_of (doc : Document) : pyval := dict_get (metadata doc) "topic".

Definition report_entry (doc : Document) : gmap string pyval :=
  {[ "topic" := topic_of doc;
     "created_at" := dict_get (metadata doc) "created_at";
     "chunks" := dict_get_default (metadata doc) "total_chunks" (VInt 1) ]}.

(** ** [save_report_and_ingest] of [src/tools_module.py] *)

(** The report files and the collection. [files] holds the files that the
    tool writes itself, by [open] and by [pdf.save]; the directories
    ([reports], and the store's directory that the ingestion creates) and
    the files that Chroma keeps under the store's directory are not in it:
    of the store, only the [collection] is represented. A character of a
    message of the source that is outside Latin-1 is written as its UTF-8
    bytes; the length of such a message is never taken. *)
Record World : Type := mkWorld {
  files : gmap string string;
  collection : list Document
}.

(** What the outside world does during one call of the tool: the faults of
    [os.makedirs("reports")], of the writing of the Markdown file and of the
    PDF generation, the value of
    [datetime.now().strftime("%Y%m%d_%H%M%S")], and what the ingestion
    meets. *)
Record SaveEnv : Type := mkSaveEnv {
  reports_makedirs_fault : option string;
  strftime_now : string;
  markdown_write_fault : option string;
  pdf_fault : option string;
  rag_init_env : InitEnv;
  rag_env : Env
}.

Definition too_short_to_save : string :=
  "❌ Report is too short (< 10 chars). Skipping save and RAG ingestion.".

(** The status returned at the end. *)
Definition saved_message (filename_md pdf_status topic report timestamp : string) : string :=
  "📄 Report saved successfully!" +:+ NL +:+ NL
  +:+ "✅ Markdown: " +:+ filename_md +:+ NL
  +:+ pdf_status
  +:+ NL +:+ "📊 Report details:" +:+ NL
  +:+ "  - Topic: " +:+ topic +:+ NL
  +:+ "  - Length: " +:+ str_of_int (len report) +:+ " characters" +:+ NL
  +:+ "  - Timestamp: " +:+ timestamp.

(** [str(v)], as an f-string prints a value. *)
Definition py_str (v : pyval) : string :=
  match v with
  | VNone => "None"
  | VBool true => "True"
  | VBool false => "False"
  | VInt z => str_of_int z
  | VStr s => s
  end.

(** [rag_status], as the tool computes it from the result of the ingestion,
    or from the exception that left it. *)
Definition rag_status_of (rag_result : string + gmap string pyval) : string :=
  match rag_result with
  | inr result =>
      if truthy (dict_get result "success")
      then "✅ RAG: " +:+ py_str (dict_get_default result "chunks_added" (VInt 0))
           +:+ " chunks indexed - Future research can reference this!" +:+ NL
      else "⚠️  RAG ingestion failed: "
           +:+ py_str (dict_get_default result "error" (VStr "Unknown error")) +:+ NL
  | inl e => "⚠️  RAG ingestion failed: " +:+ e +:+ NL
  end.

Section SaveReport.

Variable split_text : Z -> Z -> list string -> string -> string + list string.

(** The bytes that [MarkdownPdf] saves for a title and a Markdown text. *)
Variable render_pdf : string -> string -> string.

Definition save_report_and_ingest (senv : SaveEnv)
    (topic report filename : string) (state : option StateView)
    (w : World) : (string + string) * World :=
  if (String.eqb report "" || (len (strip report) <? 100))
     && (len (strip report) <? 10)
  then (inr too_short_to_save, w)
  else
    match reports_makedirs_fault senv with
    | Some e => (inl e, w)
    | None =>
        let timestamp := strftime_now senv in
        let filename_md := "reports/" +:+ filename +:+ ".md" in
        let filename_pdf := "reports/" +:+ filename +:+ ".pdf" in
        let fixed_report := fix_markdown_hierarchy report in
        match markdown_write_fault senv with
        | Some e => (inr ("❌ Failed to save Markdown report: " +:+ e), w)
        | None =>
            let files1 := <[filename_md := report]> (files w) in
            let '(pdf_status, files2) :=
              match pdf_fault senv with
              | None =>
                  ("✅ PDF: " +:+ filename_pdf +:+ NL,
                   <[filename_pdf := render_pdf topic fixed_report]> files1)
              | Some _ =>
                  ("⚠️  PDF generation failed (Markdown still saved)" +:+ NL, files1)
              end in
            let '(rag_result, collection') :=
              auto_ingest_report split_text (rag_init_env senv) (rag_env senv)
                report topic state None (collection w) in
            let rag_status := rag_status_of rag_result in
            (inr (saved_message filename_md pdf_status topic report timestamp),
             mkWorld files2 collection')
        end
    end.

End SaveReport.

(** ** [ingest_file] of [manage_rag.py] *)

(** [os.path.basename(p)] with the POSIX separator: what follows the last
    ['/']. [cur] is the component being read. *)
Fixpoint basename_go (cur p : string) : string :=
  match p with
  | EmptyString => cur
  | String c p' =>
      if Ascii.eqb c "/" then basename_go "" p'
      else basename_go (cur +:+ String c EmptyString) p'
  end.

Definition basename (p : string) : string := basename_go "" p.

(** [s.replace(old, new)] for a non-empty [old]: the occurrences are taken
    from left to right and do not overlap. [skip] counts the characters of
    an occurrence still to be passed. *)
Fixpoint py_replace_go (old new : string) (skip : nat) (s : string) : string :=
  match s with
  | EmptyString => EmptyString
  | String c s' =>
      match skip with
      | S skip' => py_replace_go old new skip' s'
      | O =>
          if String.prefix old s
          then new +:+ py_replace_go old new (String.length old - 1) s'
          else String c (py_replace_go old new 0 s')
      end
  end.

Definition py_replace (old new s : string) : string := py_replace_go old new 0 s.

(** The topic under which a file is ingested: its name without [".md"] and
    with spaces for underscores, or the first line without ["# "] when the
    content begins with ["# "]. *)
Definition ingest_topic (filepath content : string) : string :=
  let topic := py_replace "_" " " (py_replace ".md" "" (basename filepath)) in
  if String.prefix "# " content then
    let first_line := hd "" (split_lines content) in
    strip (py_replace "# " "" first_line)
  else topic.

(** What the outside world gives to one call of [ingest_file]: whether the
    path exists, what reading the file gives (its content or an exception),
    and what the ingestion meets. *)
Record FileEnv : Type := mkFileEnv {
  path_exists : bool;
  read_file : string + string;
  file_init_env : InitEnv;
  file_env : Env
}.

Section IngestFile.

Variable split_text : Z -> Z -> list string -> string -> string + list string.

(** The [try] block of [ingest_file]: it returns the lines printed. *)
Definition ingest_file_body (fenv : FileEnv) (filepath : string) : M (list string) :=
  (content <- lift (read_file fenv) ;;
   let topic := ingest_topic filepath content in
   rag <- lift (RAGIngestion__init__ (file_init_env fenv) None "research_reports") ;;
   result <- add_report split_text rag (file_env fenv) content topic
               (Some {[ "source_file" := VStr filepath;
                        "manual_ingestion" := VBool true ]})
               default_chunk_size default_chunk_overlap ;;
   success <- getitem (result !! "success") "success" ;;
   if truthy success then
     chunks_added <- getitem (result !! "chunks_added") "chunks_added" ;;
     ret [ "✅ Successfully ingested!";
           "   Topic: " +:+ topic;
           "   Chunks: " +:+ py_str chunks_added ]
   else
     ret [ "❌ Ingestion failed: "
           +:+ py_str (dict_get_default result "error" (VStr "Unknown error")) ])%py.

(** [ingest_file(filepath)]: the lines printed, and the collection. *)
Definition ingest_file (fenv : FileEnv) (filepath : string) (st : list Document)
    : list string * list Document :=
  let banner := [ NL +:+ "📝 Ingesting file: " +:+ filepath; str_repeat 70 "=" ] in
  if negb (path_exists fenv) then
    (banner ++ [ "❌ File not found: " +:+ filepath ], st)
  else
    match try_except (ingest_file_body fenv filepath)
                     (fun e => ret [ "❌ Error: " +:+ e ]) st with
    | (inr printed, st') => (banner ++ printed, st')
    | (inl e, st') => (banner, st')
    end.

End IngestFile.

(** ** More inputs to run the code on *)

(** A splitter that returns blank chunks only, and one that raises. *)
Definition blank_splitter (chunk_size chunk_overlap : Z) (seps : list string)
    (text : string) : string + list string :=
  inr ["   "; ""; NL].

Definition failing_splitter (chunk_size chunk_overlap : Z) (seps : list string)
    (text : string) : string + list string :=
  inl "splitter failed".

(** A stand-in for the PDF bytes. *)
Definition plain_pdf (title markdown : string) : string :=
  "%PDF " +:+ title +:+ NL +:+ markdown.

Definition ienv_ok : InitEnv := mkInitEnv (Some "./knowledge") None None.

Definition ienv_unset : InitEnv := mkInitEnv None None None.

Definition senv_ok : SaveEnv := mkSaveEnv None "20250101_100000" None None ienv_ok env_ok.

Definition senv_no_rag : SaveEnv :=
  mkSaveEnv None "20250101_100000" None None ienv_unset env_unreachable.

Definition world0 : World :=
  mkWorld {[ "reports/alpha.md" := "an older report" ]} store_b.

(** 60 characters. *)
Definition report_brief : string := str_repeat 10 "brief ".

Definition markdown0 : string :=
  "intro" +:+ NL +:+ "### Title  " +:+ NL +:+ "## more".

(** * Facts *)

(** ** Strings and lists *)

Lemma str_prefix_length n s : String.length (str_prefix n s) = Nat.min n (String.length s).
Proof.
  unfold str_prefix. revert s. induction n as [|n IH]; intros [|c s]; simpl; auto.
Qed.

Lemma str_prefix_is_prefix n s : String.prefix (str_prefix n s) s = true.
Proof.
  unfold str_prefix. revert s. induction n as [|n IH]; intros [|c s]; simpl; auto.
  destruct (Ascii.ascii_dec c c); [apply IH|done].
Qed.

Lemma filter_none {A} (P : A -> Prop) `{forall x, Decision (P x)} (l : list A) :
  Forall (fun x => ~ P x) l -> filter P l = [].
Proof.
  induction 1 as [|x l Hx _ IH]; [done|].
  rewrite filter_cons, decide_False by done. exact IH.
Qed.

Lemma filter_all {A} (P : A -> Prop) `{forall x, Decision (P x)} (l : list A) :
  Forall P l -> filter P l = l.
Proof.
  induction 1 as [|x l Hx _ IH]; [done|].
  rewrite filter_cons, decide_True by done. by rewrite IH.
Qed.

(** ** [add_report] *)

Section IngestionFacts.

Variable split_text : Z -> Z -> list string -> string -> string + list string.

Lemma add_report_run self env content topic metadata chunk_size chunk_overlap st :
  add_report split_text self env content topic metadata chunk_size chunk_overlap st =
  (inr (ingest_outcome split_text self env content topic metadata chunk_size chunk_overlap).1,
   st ++ (ingest_outcome split_text self env content topic metadata chunk_size chunk_overlap).2).
Proof.
  unfold add_report, ingest_outcome, try_except, bind, lift, Chroma, add_documents, ret, raise.
  destruct (_ || _); simpl; [by rewrite app_nil_r|].
  destruct (split_text _ _ _ _) as [e|chunks]; simpl; [by rewrite app_nil_r|].
  destruct (valid_chunks chunks) as [|x xs]; simpl; [by rewrite app_nil_r|].
  destruct (chroma_fault env); simpl; [by rewrite app_nil_r|].
  destruct (add_fault env); simpl; [by rewrite app_nil_r|].
  done.
Qed.

Lemma ingest_outcome_success self env content topic metadata chunk_size chunk_overlap :
  let o := ingest_outcome split_text self env content topic metadata chunk_size chunk_overlap in
  succeeded o.1 ->
  exists chunks,
    split_text chunk_size chunk_overlap separators content = inr chunks /\
    valid_chunks chunks <> [] /\
    100 <= len (strip content) /\
    o.1 = added_result self topic (Z.of_nat (length (valid_chunks chunks))) /\
    o.2 = make_documents (doc_metadata_of self env topic metadata) (valid_chunks chunks).
Proof.
  unfold ingest_outcome, succeeded. cbv zeta.
  destruct (_ || _) eqn:Hshort; [discriminate|].
  apply orb_false_iff in Hshort as [_ Hlen]. apply Z.ltb_ge in Hlen.
  destruct (split_text _ _ _ _) as [e|chunks]; [discriminate|].
  destruct (valid_chunks chunks) as [|c cs] eqn:Hv; [discriminate|].
  destruct (chroma_fault env); [discriminate|].
  destruct (add_fault env); [discriminate|].
  intros _. exists chunks. by rewrite Hv.
Qed.

Lemma make_documents_length md chunks : length (make_documents md chunks) = length chunks.
Proof. unfold make_documents. by rewrite length_imap. Qed.

Lemma make_documents_lookup md chunks i doc :
  make_documents md chunks !! i = Some doc ->
  exists chunk, chunks !! i = Some chunk /\
    doc = mkDocument chunk
            (<["total_chunks" := VInt (Z.of_nat (length chunks))]>
               (<["chunk_id" := VInt (Z.of_nat i)]> md)).
Proof.
  unfold make_documents. rewrite list_lookup_imap.
  destruct (chunks !! i) as [chunk|]; simpl; [|done].
  intros [= <-]. by exists chunk.
Qed.

Lemma doc_metadata_of_lookup self env topic given k :
  doc_metadata_of self env topic given !! k =
  match default ∅ given !! k with
  | Some v => Some v
  | None =>
      ({[ "topic" := VStr topic;
          "source" := VStr "research_report";
          "created_at" := VStr (now_iso env);
          "collection" := VStr (collection_name self) ]} : gmap string pyval) !! k
  end.
Proof.
  unfold doc_metadata_of. destruct given as [m|]; cbn [default from_option id].
  - destruct (decide (m = ∅)) as [->|_].
    + by rewrite lookup_empty.
    + rewrite lookup_union. destruct (m !! k); [|by rewrite (left_id_L None _)].
      by destruct (_ !! k).
  - by rewrite lookup_empty.
Qed.

Lemma make_documents_metadata md chunks doc k :
  doc ∈ make_documents md chunks ->
  k <> "chunk_id" -> k <> "total_chunks" ->
  metadata doc !! k = md !! k.
Proof.
  intros Hin Hid Htot. apply list_elem_of_lookup in Hin as [i Hi].
  apply make_documents_lookup in Hi as (chunk & _ & ->). simpl.
  rewrite lookup_insert_ne by done. by rewrite lookup_insert_ne.
Qed.

Lemma ingest_outcome_documents self env content topic given chunk_size chunk_overlap :
  exists chunks,
    (ingest_outcome split_text self env content topic given chunk_size chunk_overlap).2
    = make_documents (doc_metadata_of self env topic given) chunks.
Proof.
  unfold ingest_outcome. repeat case_match; simpl; try (by exists []); eauto.
Qed.

(** C2. When the trimmed content is shorter than 100 characters, [add_report]
    returns [success = False] with the too-short error, whatever the splitter
    is (it is not called), and the collection after the call is the
    collection before it. *)
Theorem add_report_rejects_short_content
    self env content topic given chunk_size chunk_overlap st :
  len (strip content) < 100 ->
  exists result,
    (forall splitter,
        add_report splitter self env content topic given chunk_size chunk_overlap st
        = (inr result, st)) /\
    result !! "success" = Some (VBool false) /\
    result !! "error" =
      Some (VStr "Report content is too short or empty (minimum 100 characters required)").
Proof.
  intros Hlen. exists (too_short_result content topic). split; [|done].
  intros splitter. unfold add_report, try_except, ret.
  apply Z.ltb_lt in Hlen. rewrite Hlen, orb_true_r. done.
Qed.

(** C1, as the code has it. Every chunk that a call of [add_report] persists
    carries, for each of the four default fields [topic], [source],
    [created_at] and [collection], the caller's value when the caller's
    metadata has that key and the default otherwise: the topic is the [topic]
    argument exactly when the caller's metadata has no ['topic'] key. *)
Theorem add_report_metadata_merge
    self env content topic given chunk_size chunk_overlap st :
  exists result docs,
    add_report split_text self env content topic given chunk_size chunk_overlap st
    = (inr result, st ++ docs) /\
    Forall (fun doc =>
              (metadata doc !! "topic"
               = Some (default (VStr topic) (default ∅ given !! "topic"))) /\
              (metadata doc !! "source"
               = Some (default (VStr "research_report") (default ∅ given !! "source"))) /\
              (metadata doc !! "created_at"
               = Some (default (VStr (now_iso env)) (default ∅ given !! "created_at"))) /\
              (metadata doc !! "collection"
               = Some (default (VStr (collection_name self))
                         (default ∅ given !! "collection"))))
           docs.
Proof.
  rewrite add_report_run. eexists _, _. split; [done|].
  apply Forall_forall. intros doc Hin.
  destruct (ingest_outcome_documents self env content topic given chunk_size chunk_overlap)
    as [chunks Hdocs].
  rewrite Hdocs in Hin.
  rewrite !(make_documents_metadata _ _ _ _ Hin) by done.
  rewrite !doc_metadata_of_lookup.
  repeat split; by destruct (default ∅ given !! _).
Qed.

(** C3. A successful [add_report] appends to the collection the documents of
    the valid chunks, in chunking order; their number is [chunks_added] and
    is not zero; their [chunk_id]s are 0, 1, ..., n-1 in that order, and each
    of them has [total_chunks = n]. *)
Theorem add_report_chunk_ids
    self env content topic given chunk_size chunk_overlap st result st' :
  add_report split_text self env content topic given chunk_size chunk_overlap st
  = (inr result, st') ->
  succeeded result ->
  exists chunks docs,
    split_text chunk_size chunk_overlap separators content = inr chunks /\
    st' = st ++ docs /\
    docs <> [] /\
    result !! "chunks_added" = Some (VInt (Z.of_nat (length docs))) /\
    page_content <$> docs = valid_chunks chunks /\
    (fun doc => metadata doc !! "chunk_id") <$> docs
      = (fun i => Some (VInt (Z.of_nat i))) <$> seq 0 (length docs) /\
    Forall (fun doc => metadata doc !! "total_chunks"
                       = Some (VInt (Z.of_nat (length docs)))) docs.
Proof.
  rewrite add_report_run. intros [= <- <-] Hok.
  apply ingest_outcome_success in Hok as (chunks & Hsplit & Hne & _ & Hres & Hdocs).
  exists chunks, (make_documents (doc_metadata_of self env topic given) (valid_chunks chunks)).
  rewrite Hdocs, Hres, make_documents_length.
  split; [done|]. split; [done|].
  split.
  { intros Hnil. apply (f_equal length) in Hnil.
    rewrite make_documents_length in Hnil. by destruct (valid_chunks chunks). }
  split; [done|].
  split.
  { apply list_eq. intros i. rewrite list_lookup_fmap.
    unfold make_documents. rewrite list_lookup_imap.
    by destruct (valid_chunks chunks !! i). }
  split.
  { apply list_eq. intros i. rewrite !list_lookup_fmap.
    unfold make_documents. rewrite list_lookup_imap.
    destruct (valid_chunks chunks !! i) as [c|] eqn:Hi; simpl.
    - rewrite lookup_seq_lt by (by eapply lookup_lt_Some). simpl.
      rewrite lookup_insert_ne by done. by rewrite lookup_insert_eq.
    - rewrite lookup_seq_ge by (by apply lookup_ge_None). done. }
  apply Forall_forall. intros doc Hin.
  apply list_elem_of_lookup in Hin as [i Hi].
  apply make_documents_lookup in Hi as (chunk & _ & ->). simpl.
  by rewrite lookup_insert_eq.
Qed.

End IngestionFacts.

(** ** [add_multiple_reports] *)

Section BatchFacts.

Variable split_text : Z -> Z -> list string -> string -> string + list string.

Lemma ingest_outcome_success_flag self env content topic given chunk_size chunk_overlap :
  exists b : bool,
    (ingest_outcome split_text self env content topic given chunk_size chunk_overlap).1
      !! "success" = Some (VBool b).
Proof.
  unfold ingest_outcome. repeat case_match; simpl; by eexists.
Qed.

Lemma add_one_report_run self er :
  has_content_and_topic er.2 ->
  exists (b : bool) result docs,
    result !! "success" = Some (VBool b) /\
    forall st0, add_one_report split_text self er st0 = (inr result, st0 ++ docs).
Proof.
  intros [[content Hc] [topic Ht]].
  destruct (ingest_outcome_success_flag self er.1 content topic
              (Some (default ∅ (rep_metadata er.2)))
              default_chunk_size default_chunk_overlap) as [b Hb].
  eexists b, _, _. split; [exact Hb|].
  intros st0. unfold add_one_report, bind, getitem, ret.
  rewrite Hc, Ht. simpl. by rewrite add_report_run.
Qed.

Lemma add_multiple_reports_loop_run self reports : forall results st,
  Forall (fun er => has_content_and_topic er.2) reports ->
  exists new_details,
    Some <$> new_details
      = (fun er => returned (add_one_report split_text self er [])) <$> reports /\
    add_multiple_reports_loop split_text self reports results st
    = (inr (mkBatchResults
              (successful results + Z.of_nat (length (filter succeeded new_details)))
              (failed results
               + Z.of_nat (length (filter (fun r => ~ succeeded r) new_details)))
              (details results ++ new_details)),
       st ++ concat ((fun er => (add_one_report split_text self er []).2) <$> reports)).
Proof.
  induction reports as [|[env report] reports IH]; intros results st Hwf.
  - exists []. split; [done|]. simpl. unfold ret.
    rewrite !Z.add_0_r, !app_nil_r. by destruct results.
  - apply Forall_cons in Hwf as [Hwf1 Hwf].
    destruct (add_one_report_run self (env, report) Hwf1)
      as (b & result & docs & Hb & Hrun).
    pose proof (Hrun st) as Hst. pose proof (Hrun []) as Hnil.
    unfold add_one_report, bind in Hst. simpl in Hst.
    cbn [add_multiple_reports_loop]. unfold bind at 1.
    destruct (getitem (rep_content report) "content" st) as [[e|content] st1] eqn:Hc;
      [discriminate|].
    unfold bind at 1.
    destruct (getitem (rep_topic report) "topic" st1) as [[e|topic] st2] eqn:Ht;
      [discriminate|].
    unfold bind at 1. rewrite Hst.
    unfold bind at 1. rewrite Hb. cbn [getitem]. unfold ret at 1. cbn [truthy].
    match goal with
    | |- context [add_multiple_reports_loop _ _ _ ?r ?s] =>
        destruct (IH r s Hwf) as (rest & Hrest & Hloop); rewrite Hloop
    end.
    exists (result :: rest). split.
    { rewrite !fmap_cons. cbn beta. rewrite Hnil. unfold returned at 1. cbn [fst].
      f_equal. exact Hrest. }
    rewrite fmap_cons. cbn beta. rewrite Hnil. cbn [snd concat app].
    rewrite !filter_cons.
    destruct b; simpl.
    + rewrite (decide_True (P := succeeded result)) by exact Hb.
      rewrite (decide_False (P := ~ succeeded result)) by (intros H; by apply H).
      cbn [length]. rewrite <- !app_assoc. simpl.
      do 2 f_equal. f_equal; lia.
    + assert (Hno : ~ succeeded result) by (unfold succeeded; congruence).
      rewrite (decide_False (P := succeeded result)) by exact Hno.
      rewrite (decide_True (P := ~ succeeded result)) by exact Hno.
      cbn [length]. rewrite <- !app_assoc. simpl.
      do 2 f_equal. f_equal; lia.
Qed.

Lemma filter_succeeded_split (l : list (gmap string pyval)) :
  (length (filter succeeded l) + length (filter (fun r => ~ succeeded r) l))%nat = length l.
Proof.
  induction l as [|r l IH]; [done|].
  rewrite !filter_cons. destruct (decide (succeeded r)).
  - rewrite decide_False by (intros H; by apply H). simpl. lia.
  - rewrite decide_True by done. simpl. lia.
Qed.

(** C8. On a list of reports that all have the keys ['content'] and ['topic'],
    [add_multiple_reports] returns (it does not raise); [details] has one
    result per report, in input order, and the result of a report is the one
    that its own [add_report] call returns on any collection, so it does not
    depend on the other reports; [successful] and [failed] count the results
    with a true and with a false ['success'], and add up to the number of
    reports; the collection grows by the documents of each report in turn. *)
Theorem add_multiple_reports_continues self reports st :
  Forall (fun er => has_content_and_topic er.2) reports ->
  exists results,
    add_multiple_reports split_text self reports st
    = (inr results,
       st ++ concat ((fun er => (add_one_report split_text self er []).2) <$> reports)) /\
    (forall st0,
        Some <$> details results
        = (fun er => returned (add_one_report split_text self er st0)) <$> reports) /\
    length (details results) = length reports /\
    successful results = Z.of_nat (length (filter succeeded (details results))) /\
    failed results = Z.of_nat (length (filter (fun r => ~ succeeded r) (details results))) /\
    successful results + failed results = Z.of_nat (length reports).
Proof.
  intros Hwf. unfold add_multiple_reports.
  destruct (add_multiple_reports_loop_run self reports (mkBatchResults 0 0 []) st Hwf)
    as (ds & Hds & Hrun).
  eexists. split; [exact Hrun|]. cbn [details successful failed app].
  assert (Hlen : length ds = length reports).
  { apply (f_equal length) in Hds. by rewrite !length_fmap in Hds. }
  split.
  { intros st0. rewrite Hds. apply Forall_fmap_ext_1. eapply Forall_impl; [exact Hwf|].
    intros er Her. simpl.
    destruct (add_one_report_run self er Her) as (b & result & docs & _ & Hany).
    unfold returned. by rewrite (Hany []), (Hany st0). }
  split; [done|]. split; [lia|]. split; [lia|].
  pose proof (filter_succeeded_split ds). lia.
Qed.

End BatchFacts.

(** ** [verify_ingestion] and [list_ingested_reports] *)

Section RetrievalFacts.

Variable rank : string -> list Document -> list Document.

Lemma verify_ingestion_run self env topic query st :
  verify_ingestion rank self env topic query st =
  match store_fault env with
  | Some e => (inr {[ "found" := VBool false; "error" := VStr e ]}, st)
  | None =>
      let docs := take 3 (rank (search_query_of topic query) st) in
      (inr (verify_result (filter (has_topic topic) docs) docs), st)
  end.
Proof.
  unfold verify_ingestion, store_fault, try_except, bind, Chroma, retriever_invoke, ret, raise.
  destruct (chroma_fault env); [done|].
  by destruct (invoke_fault env).
Qed.

Lemma list_ingested_reports_run self env st :
  list_ingested_reports rank self env st =
  match store_fault env with
  | Some e => (inr [], st)
  | None => (inr (snd <$> fold_left record_topic (take 100 (rank "research" st)) []), st)
  end.
Proof.
  unfold list_ingested_reports, store_fault, try_except, bind, Chroma, retriever_invoke,
    ret, raise.
  destruct (chroma_fault env); [done|].
  by destruct (invoke_fault env).
Qed.

(** C10, as the code has it. [verify_ingestion] always returns a dict and
    leaves the collection alone. When the store is reached, the dict has the
    four fields: [found] is true exactly when [chunks_found > 0];
    [chunks_found] counts the results whose topic is the requested one,
    [chunks_found <= total_results <= 3]; [sample_content] is a prefix of at
    most 200 characters of the first such result when there is one, and
    [None] otherwise. When the store raises, the dict is
    [{found: False, error: message}] and has no other field. *)
Theorem verify_ingestion_fields self env topic query st :
  exists result,
    verify_ingestion rank self env topic query st = (inr result, st) /\
    match store_fault env with
    | Some e => result = {[ "found" := VBool false; "error" := VStr e ]}
    | None =>
        let topic_docs :=
          filter (has_topic topic) (take 3 (rank (search_query_of topic query) st)) in
        exists (found : bool) (chunks_found total_results : Z) (sample_content : pyval),
          result !! "found" = Some (VBool found) /\
          result !! "chunks_found" = Some (VInt chunks_found) /\
          result !! "total_results" = Some (VInt total_results) /\
          result !! "sample_content" = Some sample_content /\
          (found = true <-> 0 < chunks_found) /\
          chunks_found = Z.of_nat (length topic_docs) /\
          0 <= chunks_found <= total_results /\ total_results <= 3 /\
          match topic_docs with
          | doc :: _ =>
              0 < chunks_found /\
              exists sample,
                sample_content = VStr sample /\
                String.prefix sample (page_content doc) = true /\
                (String.length sample <= 200)%nat
          | [] => chunks_found = 0 /\ sample_content = VNone
          end
    end.
Proof.
  rewrite verify_ingestion_run. destruct (store_fault env) as [e|].
  { by eexists. }
  cbv zeta. eexists. split; [done|].
  set (docs := take 3 (rank (search_query_of topic query) st)).
  set (topic_docs := filter (has_topic topic) docs).
  assert (Hle : (length topic_docs <= length docs)%nat) by apply length_filter.
  assert (H3 : (length docs <= 3)%nat) by (unfold docs; rewrite length_take; lia).
  eexists _, _, _, _. unfold verify_result.
  split; [reflexivity|]. split; [reflexivity|]. split; [reflexivity|].
  split; [reflexivity|].
  split; [apply Z.ltb_lt|]. split; [done|]. split; [lia|]. split; [lia|].
  destruct topic_docs as [|doc rest]; [done|]. simpl.
  split; [lia|]. eexists. split; [done|].
  split; [apply str_prefix_is_prefix|]. rewrite str_prefix_length. lia.
Qed.

(** C9, as the code has it. When the store raises, [verify_ingestion] returns
    [{found: False, error: message}] and [list_ingested_reports] returns the
    empty list; neither raises. When the store answers and nothing matches,
    [verify_ingestion] returns [found = False] and [chunks_found = 0] without
    an ['error'] key, and [list_ingested_reports] returns the empty list. *)
Theorem store_failure_reporting self env topic query st :
  match store_fault env with
  | Some e =>
      verify_ingestion rank self env topic query st
      = (inr {[ "found" := VBool false; "error" := VStr e ]}, st) /\
      list_ingested_reports rank self env st = (inr [], st)
  | None =>
      (filter (has_topic topic) (take 3 (rank (search_query_of topic query) st)) = [] ->
       exists result,
         verify_ingestion rank self env topic query st = (inr result, st) /\
         result !! "found" = Some (VBool false) /\
         result !! "chunks_found" = Some (VInt 0) /\
         result !! "error" = None) /\
      (take 100 (rank "research" st) = [] ->
       list_ingested_reports rank self env st = (inr [], st))
  end.
Proof.
  rewrite verify_ingestion_run, list_ingested_reports_run.
  destruct (store_fault env) as [e|]; [done|].
  split.
  - cbv zeta. intros ->. by eexists.
  - by intros ->.
Qed.

End RetrievalFacts.

Section VerifyAfterAdd.

Variable split_text : Z -> Z -> list string -> string -> string + list string.
Variable rank : string -> list Document -> list Document.

(** The ranking only reorders the stored documents. *)
Hypothesis rank_permutation : forall query store, rank query store ≡ₚ store.

Lemma topic_docs_in_top3 topic docs (st l : list Document) :
  l ≡ₚ st ++ docs ->
  docs <> [] ->
  Forall (has_topic topic) docs ->
  (length (filter (fun doc => ~ has_topic topic doc) st) < 3)%nat ->
  filter (has_topic topic) (take 3 l) <> [].
Proof.
  intros Hperm Hne Hall Hfew Hnil.
  assert (Hother : (length (filter (fun doc => ~ has_topic topic doc) l) < 3)%nat).
  { rewrite Hperm, filter_app, length_app.
    replace (filter (fun doc => ~ has_topic topic doc) docs) with (@nil Document).
    - simpl. lia.
    - symmetry. apply filter_none.
      eapply Forall_impl; [exact Hall|]. intros doc Hd Hn. by apply Hn. }
  pose proof (filter_app_complement (has_topic topic) (take 3 l)) as Hsplit.
  rewrite Hnil in Hsplit. simpl in Hsplit.
  assert (Htake : (length (take 3 l) <= length (filter (fun doc => ~ has_topic topic doc) l))%nat).
  { rewrite <- Hsplit at 1. rewrite <- (take_drop 3 l) at 2.
    rewrite filter_app, length_app. lia. }
  rewrite length_take in Htake.
  destruct (decide (length l < 3)%nat) as [Hshort|Hlong]; [|lia].
  rewrite take_ge in Hnil by lia.
  destruct docs as [|doc docs]; [done|].
  apply Forall_cons in Hall as [Hdoc _].
  assert (Hin : doc ∈ filter (has_topic topic) l).
  { apply list_elem_of_filter. split; [done|]. rewrite Hperm. set_solver. }
  rewrite Hnil in Hin. by apply elem_of_nil in Hin.
Qed.

(** C7, as the code has it. Let the ranking reorder the stored documents
    only. After a successful [add_report content topic] whose metadata does
    not set ['topic'], on a collection that holds fewer than three chunks of
    other topics, a [verify_ingestion topic] that reaches the store returns
    [found = True] and [chunks_found >= 1]. *)
Theorem verify_after_add
    self env env' content topic given chunk_size chunk_overlap st result st' :
  100 <= len (strip content) ->
  default ∅ given !! "topic" = None ->
  add_report split_text self env content topic given chunk_size chunk_overlap st
  = (inr result, st') ->
  succeeded result ->
  store_fault env' = None ->
  (length (filter (fun doc => ~ has_topic topic doc) st) < 3)%nat ->
  exists verdict chunks_found,
    verify_ingestion rank self env' topic None st' = (inr verdict, st') /\
    verdict !! "found" = Some (VBool true) /\
    verdict !! "chunks_found" = Some (VInt chunks_found) /\
    1 <= chunks_found.
Proof.
  intros _ Hgiven Hadd Hok Hfault Hfew.
  rewrite add_report_run in Hadd. injection Hadd as <- <-.
  apply ingest_outcome_success in Hok as (chunks & _ & Hne & _ & _ & ->).
  set (docs := make_documents (doc_metadata_of self env topic given) (valid_chunks chunks)).
  assert (Hdocs : docs <> []).
  { intros Hnil. apply (f_equal length) in Hnil. unfold docs in Hnil.
    rewrite make_documents_length in Hnil. by destruct (valid_chunks chunks). }
  assert (Hall : Forall (has_topic topic) docs).
  { apply Forall_forall. intros doc Hin. unfold has_topic, dict_get.
    rewrite (make_documents_metadata _ _ _ _ Hin) by done.
    by rewrite doc_metadata_of_lookup, Hgiven. }
  rewrite verify_ingestion_run, Hfault. cbv zeta.
  set (l := rank (search_query_of topic None) (st ++ docs)).
  pose proof (topic_docs_in_top3 topic docs st l (rank_permutation _ _) Hdocs Hall Hfew) as Hfound.
  eexists _, _. split; [done|]. unfold verify_result.
  split; [|split; [reflexivity|]].
  - rewrite lookup_insert_eq. do 2 f_equal. apply Z.ltb_lt.
    destruct (filter (has_topic topic) (take 3 l)); [done|]. simpl. lia.
  - destruct (filter (has_topic topic) (take 3 l)); [done|]. simpl. lia.
Qed.

End VerifyAfterAdd.

(** ** The Vector Store queries *)

Section VectorStoreFacts.

Variable Vec : Type.
Variable embed : string -> Vec.
Variable relevance : Vec -> Vec -> Q.
Variable similarity : Vec -> Vec -> Q.

Local Abbreviation before := (before Vec embed relevance).
Local Abbreviation relevance_of := (relevance_of Vec embed relevance).

Lemma insert_ranked_permutation qv doc ranked :
  insert_ranked Vec embed relevance qv doc ranked ≡ₚ doc :: ranked.
Proof.
  induction ranked as [|x ranked IH]; simpl; [done|].
  destruct (Qle_bool _ _); [done|].
  rewrite IH. apply Permutation_swap.
Qed.

Lemma rank_by_relevance_permutation qv store :
  rank_by_relevance Vec embed relevance qv store ≡ₚ store.
Proof.
  induction store as [|doc store IH]; simpl; [done|].
  unfold rank_by_relevance in *. simpl.
  by rewrite insert_ranked_permutation, IH.
Qed.

Lemma insert_ranked_sorted qv doc ranked :
  StronglySorted (before qv) ranked ->
  StronglySorted (before qv) (insert_ranked Vec embed relevance qv doc ranked).
Proof.
  induction 1 as [|x ranked Hsorted IH Hx]; simpl.
  - repeat constructor.
  - destruct (Qle_bool _ _) eqn:Hle.
    + apply Qle_bool_iff in Hle.
      constructor; [by constructor|].
      constructor; [exact Hle|].
      eapply Forall_impl; [exact Hx|]. intros y Hy. unfold before in *.
      eapply Qle_trans; [exact Hy|exact Hle].
    + constructor; [exact IH|].
      rewrite insert_ranked_permutation. constructor; [|exact Hx].
      unfold before. apply Qlt_le_weak, Qnot_le_lt. intros Hle'.
      apply Qle_bool_iff in Hle'. congruence.
Qed.

Lemma rank_by_relevance_sorted qv store :
  StronglySorted (before qv) (rank_by_relevance Vec embed relevance qv store).
Proof.
  induction store as [|doc store IH]; [constructor|].
  by apply insert_ranked_sorted.
Qed.

Lemma take_sorted qv k l :
  StronglySorted (before qv) l -> StronglySorted (before qv) (take k l).
Proof.
  intros Hsorted. revert k. induction Hsorted as [|x l Hsorted IH Hx]; intros [|k]; simpl;
    try constructor; [apply IH|].
  apply Forall_forall. intros y Hy. rewrite Forall_forall in Hx. apply Hx.
  by eapply subseteq_take.
Qed.

Lemma pick_best_sorted qv (score : Document -> Q) c candidates :
  (forall doc, score doc == relevance_of qv doc)%Q ->
  StronglySorted (before qv) (c :: candidates) ->
  pick_best score (c :: candidates) = Some (c, candidates).
Proof.
  intros Hscore. revert c. induction candidates as [|c' candidates IH]; intros c Hsorted.
  - done.
  - apply StronglySorted_inv in Hsorted as [Hrest Hc].
    cbn [pick_best]. cbn [pick_best] in IH. rewrite (IH c' Hrest).
    apply Forall_cons in Hc as [Hc _]. unfold before in Hc.
    assert (Hle : Qle_bool (score c') (score c) = true).
    { apply Qle_bool_iff. by rewrite !Hscore. }
    by rewrite Hle.
Qed.

Lemma mmr_score_relevance_only qv selected doc :
  (mmr_score Vec embed relevance similarity 1 qv selected doc == relevance_of qv doc)%Q.
Proof. unfold mmr_score. ring. Qed.

Lemma mmr_select_relevance_only qv k : forall candidates selected,
  StronglySorted (before qv) candidates ->
  mmr_select Vec embed relevance similarity k 1 qv candidates selected = take k candidates.
Proof.
  induction k as [|k IH]; intros candidates selected Hsorted; [done|].
  destruct candidates as [|c candidates]; [done|].
  cbn [mmr_select take].
  rewrite (pick_best_sorted qv) by (auto using mmr_score_relevance_only).
  f_equal. apply IH. by apply StronglySorted_inv in Hsorted as [? _].
Qed.

(** C6. For every query vector, [k] and [fetch_k >= k], [mmr_search] with
    [lambda = 1] returns the results of [similarity_search] for [k], in the
    same order. *)
Theorem mmr_search_lambda_one qv (k fetch_k : nat) store :
  (k <= fetch_k)%nat ->
  mmr_search Vec embed relevance similarity qv k fetch_k 1 store
  = similarity_search Vec embed relevance qv k store.
Proof.
  intros Hk. unfold mmr_search.
  rewrite mmr_select_relevance_only.
  - unfold similarity_search. rewrite take_take. f_equal. lia.
  - apply take_sorted, rank_by_relevance_sorted.
Qed.

End VectorStoreFacts.

(** ** The Chunker *)

Section ChunkerFacts.

Lemma str_drop_length n s : String.length (str_drop n s) = (String.length s - n)%nat.
Proof. revert s. induction n as [|n IH]; intros [|c s]; simpl; auto. Qed.

Lemma str_append_empty_r s : s +:+ "" = s.
Proof.
  induction s as [|c s IH]; [done|].
  change (String c (s +:+ "") = String c s). by rewrite IH.
Qed.

Lemma str_append_assoc s1 s2 s3 : (s1 +:+ s2) +:+ s3 = s1 +:+ (s2 +:+ s3).
Proof.
  induction s1 as [|c s1 IH]; [done|].
  change (String c ((s1 +:+ s2) +:+ s3) = String c (s1 +:+ (s2 +:+ s3))). by rewrite IH.
Qed.

Lemma unbroken_lstrip s : unbroken s = true -> lstrip s = s.
Proof. destruct s as [|c s]; simpl; [done|]. by destruct (isspace c). Qed.

Lemma unbroken_rstrip s : unbroken s = true -> rstrip s = s.
Proof.
  induction s as [|c s IH]; simpl; [done|].
  destruct (isspace c); simpl; [done|]. intros Hs. rewrite (IH Hs).
  by destruct s.
Qed.

Lemma unbroken_strip s : unbroken s = true -> strip s = s.
Proof.
  intros Hs. unfold strip. rewrite (unbroken_lstrip s Hs). by apply unbroken_rstrip.
Qed.

Lemma unbroken_str_drop n s : unbroken s = true -> unbroken (str_drop n s) = true.
Proof.
  revert s. induction n as [|n IH]; intros [|c s]; simpl; auto.
  intros [_ Hs]%andb_true_iff. by apply IH.
Qed.

Lemma unbroken_str_prefix n s : unbroken s = true -> unbroken (str_prefix n s) = true.
Proof.
  unfold str_prefix. revert s. induction n as [|n IH]; intros [|c s]; simpl; auto.
  intros [Hc Hs]%andb_true_iff. rewrite Hc. by apply IH.
Qed.

(** A separator that begins with a whitespace character does not occur in
    an unbroken text. *)
Lemma cut_at_go_unbroken c0 sep cur text :
  isspace c0 = true -> unbroken text = true ->
  cut_at_go (String c0 sep) cur text = [cur +:+ text].
Proof.
  intros Hc0. revert cur. induction text as [|c text IH]; intros cur Htext.
  - simpl. by rewrite str_append_empty_r.
  - simpl in Htext. apply andb_true_iff in Htext as [Hc Htext].
    cbn [cut_at_go String.prefix].
    destruct (Ascii.ascii_dec c0 c) as [->|_].
    { by rewrite Hc0 in Hc. }
    cbn [andb]. rewrite (IH _ Htext). by rewrite str_append_assoc.
Qed.

Lemma accumulate_one_long chunk_size overlap finer text :
  (chunk_size < String.length text)%nat ->
  accumulate chunk_size overlap finer "" "" [text] = finer text.
Proof.
  intros Hlong. cbn [accumulate]. apply Nat.ltb_lt in Hlong. rewrite Hlong.
  simpl. by rewrite app_nil_r.
Qed.

Lemma split_tiers_skip c0 sep finer chunk_size overlap text :
  isspace c0 = true ->
  (chunk_size < String.length text)%nat ->
  unbroken text = true ->
  split_tiers (String c0 sep :: finer) chunk_size overlap text
  = split_tiers finer chunk_size overlap text.
Proof.
  intros Hc0 Hlong Htext. cbn [split_tiers String.eqb]. unfold cut_at.
  rewrite cut_at_go_unbroken by done.
  change ("" +:+ text) with text. by rewrite accumulate_one_long.
Qed.

Lemma split_tiers_unbroken chunk_size overlap text :
  (chunk_size < String.length text)%nat ->
  unbroken text = true ->
  split_tiers separators chunk_size overlap text = hard_cut chunk_size overlap text.
Proof.
  intros Hlong Htext.
  change separators with
    [String "010" "## "; String "010" "### "; String "010" NL; String "010" "";
     String " " ""; ""].
  by rewrite !split_tiers_skip.
Qed.

Lemma ceil_div_one x d : 0 < x <= d -> ceil_div x d = 1.
Proof.
  intros Hx. unfold ceil_div. symmetry. apply (Z.div_unique _ _ 1 (x - 1)); lia.
Qed.

Lemma ceil_div_step x d : 0 < d -> ceil_div (x + d) d = 1 + ceil_div x d.
Proof.
  intros Hd. unfold ceil_div.
  replace (x + d + d - 1) with (x + d - 1 + 1 * d) by lia.
  rewrite Z.div_add by lia. lia.
Qed.

Lemma hard_cut_go_count chunk_size overlap : forall fuel text,
  (overlap < chunk_size)%nat ->
  (overlap < String.length text <= fuel)%nat ->
  Z.of_nat (length (hard_cut_go fuel chunk_size overlap text))
  = ceil_div (Z.of_nat (String.length text) - Z.of_nat overlap)
             (Z.of_nat chunk_size - Z.of_nat overlap).
Proof.
  intros fuel text Hconf. revert text.
  induction fuel as [|fuel IH]; intros text Hlen; [lia|].
  cbn [hard_cut_go]. destruct (Nat.leb_spec (String.length text) chunk_size) as [Hfit|Hlong].
  - rewrite ceil_div_one by lia. done.
  - cbn [length]. rewrite Nat2Z.inj_succ, IH.
    + rewrite str_drop_length.
      rewrite <- Z.add_1_l, <- ceil_div_step by lia. f_equal. lia.
    + rewrite str_drop_length. lia.
Qed.

Lemma unbroken_not_blank s : unbroken s = true -> s <> "" -> strip s <> "".
Proof. intros Hs Hne. by rewrite unbroken_strip. Qed.

Lemma hard_cut_go_not_blank chunk_size overlap : forall fuel text,
  (overlap < chunk_size)%nat ->
  (overlap < String.length text)%nat ->
  unbroken text = true ->
  Forall (fun chunk => strip chunk <> "") (hard_cut_go fuel chunk_size overlap text).
Proof.
  intros fuel text Hconf. revert text.
  induction fuel as [|fuel IH]; intros text Hlen Htext; [constructor|].
  cbn [hard_cut_go]. destruct (Nat.leb_spec (String.length text) chunk_size) as [Hfit|Hlong].
  - constructor; [|constructor]. apply unbroken_not_blank; [done|].
    intros ->. simpl in Hlen. lia.
  - constructor.
    + apply unbroken_not_blank; [by apply unbroken_str_prefix|].
      intros Hnil. apply (f_equal String.length) in Hnil.
      rewrite str_prefix_length in Hnil. simpl in Hnil. lia.
    + apply IH; [rewrite str_drop_length; lia|by apply unbroken_str_drop].
Qed.






(** C4, as the model has it. For [0 <= overlap < chunk_size]: a text that is
    blank after trimming is refused with [EmptyInputError]; any other text
    of length at most [chunk_size] gives exactly one chunk, the trimmed text;
    a longer text without whitespace (a single unbroken word) gives exactly
    [ceil((L - overlap) / (chunk_size - overlap))] chunks. *)
Theorem split_chunk_count text chunk_size overlap :
  0 <= overlap < chunk_size ->
  (strip text = "" -> split text chunk_size overlap = inl EmptyInputError) /\
  (strip text <> "" -> len text <= chunk_size ->
   split text chunk_size overlap = inr [strip text]) /\
  (unbroken text = true -> chunk_size < len text ->
   exists chunks,
     split text chunk_size overlap = inr chunks /\
     Z.of_nat (length chunks) = ceil_div (len text - overlap) (chunk_size - overlap)).
Proof.
  intros Hconf. unfold split, split_with.
  assert (Hok : (chunk_size <=? overlap) = false) by (apply Z.leb_gt; lia).
  rewrite Hok. split; [|split].
  - intros ->. done.
  - intros Hne Hfit. apply String.eqb_neq in Hne. rewrite Hne.
    apply Z.leb_le in Hfit. by rewrite Hfit.
  - intros Hword Hlong. unfold len in *.
    assert (Hne : String.eqb (strip text) "" = false).
    { apply String.eqb_neq. apply unbroken_not_blank; [done|].
      intros ->. simpl in Hlong. lia. }
    rewrite Hne. assert (Hfit : (Z.of_nat (String.length text) <=? chunk_size) = false)
      by (apply Z.leb_gt; lia).
    rewrite Hfit. eexists. split; [done|].
    rewrite split_tiers_unbroken by (done || lia).
    unfold hard_cut. rewrite filter_all by (apply hard_cut_go_not_blank; (done || lia)).
    rewrite hard_cut_go_count by lia. f_equal; lia.
Qed.

End ChunkerFacts.

(** * The code run on concrete inputs *)

(** The example ranking reorders the collection only. *)
Lemma length_rank_permutation query store : length_rank query store ≡ₚ store.
Proof. apply rank_by_relevance_permutation. Qed.

(** C1 fails as stated: with the caller's metadata [{'topic': 'other'}], the
    report on the topic B is persisted as one chunk whose topic is
    ['other']. *)
Lemma add_report_topic_overridden :
  let run := add_report chunker_split_text rag0 env_ok report_b "B"
               (Some {[ "topic" := VStr "other" ]}) 1000 200 [] in
  (exists result, run.1 = inr result /\ succeeded result) /\
  (fun doc => metadata doc !! "topic") <$> run.2 = [Some (VStr "other")] /\
  VStr "other" <> VStr "B".
Proof.
  cbv zeta. split; [eexists; split; [vm_compute; reflexivity|vm_compute; reflexivity]|].
  split; [vm_compute; reflexivity|discriminate].
Qed.

(** C2 on the content ["short"]. *)
Lemma add_report_rejects_short_content_witness :
  len (strip "short") < 100 /\
  exists result,
    (forall splitter,
        add_report splitter rag0 env_ok "short" "T" None 1000 200 store_b
        = (inr result, store_b)) /\
    result !! "success" = Some (VBool false) /\
    result !! "error" =
      Some (VStr "Report content is too short or empty (minimum 100 characters required)").
Proof.
  split; [reflexivity|].
  apply add_report_rejects_short_content. reflexivity.
Defined.

(** C3 on a report of 1500 characters. *)
Lemma add_report_chunk_ids_witness :
  exists result st',
    add_report chunker_split_text rag0 env_ok report_long "A" None 1000 200 store_b
    = (inr result, st') /\
    succeeded result /\
    exists chunks docs,
      chunker_split_text 1000 200 separators report_long = inr chunks /\
      st' = store_b ++ docs /\
      docs <> [] /\
      result !! "chunks_added" = Some (VInt (Z.of_nat (length docs))) /\
      page_content <$> docs = valid_chunks chunks /\
      (fun doc => metadata doc !! "chunk_id") <$> docs
        = (fun i => Some (VInt (Z.of_nat i))) <$> seq 0 (length docs) /\
      Forall (fun doc => metadata doc !! "total_chunks"
                         = Some (VInt (Z.of_nat (length docs)))) docs.
Proof.
  pose proof (add_report_run chunker_split_text rag0 env_ok report_long "A" None 1000 200
                store_b) as Hrun.
  eexists _, _. split; [exact Hrun|].
  assert (Hok : succeeded
                  (ingest_outcome chunker_split_text rag0 env_ok report_long "A" None
                     1000 200).1) by (vm_compute; reflexivity).
  split; [exact Hok|].
  exact (add_report_chunk_ids chunker_split_text rag0 env_ok report_long "A" None
           1000 200 store_b _ _ Hrun Hok).
Defined.

(** The two chunks of that report. *)
Example add_report_long_chunk_ids :
  let docs := (add_report chunker_split_text rag0 env_ok report_long "A" None 1000 200 []).2 in
  (fun doc => (metadata doc !! "chunk_id", metadata doc !! "total_chunks")) <$> docs
  = [(Some (VInt 0), Some (VInt 2)); (Some (VInt 1), Some (VInt 2))].
Proof. vm_compute. reflexivity. Qed.

(** C4 fails as stated: the empty text has length at most [chunk_size] and
    gives no chunk, and a text of 20 characters made of three words gives
    three chunks for [chunk_size = 10] and [overlap = 0], where the formula
    gives two. *)
Lemma split_chunk_count_fails :
  split "" 10 2 = inl EmptyInputError /\
  split "aaaaaa bbbbbb cccccc" 10 0 = inr ["aaaaaa"; " bbbbbb"; " cccccc"] /\
  len "aaaaaa bbbbbb cccccc" = 20 /\
  ceil_div (20 - 0) (10 - 0) = 2.
Proof. vm_compute. auto. Qed.

(** C4, as the model has it, on the alphabet. *)
Lemma split_chunk_count_witness :
  0 <= 2 < 10 /\
  (strip "abcdefghijklmnopqrstuvwxyz" <> "" ->
   len "abcdefghijklmnopqrstuvwxyz" <= 26 ->
   split "abcdefghijklmnopqrstuvwxyz" 26 2 = inr [strip "abcdefghijklmnopqrstuvwxyz"]) /\
  exists chunks,
    split "abcdefghijklmnopqrstuvwxyz" 10 2 = inr chunks /\
    Z.of_nat (length chunks) = ceil_div (len "abcdefghijklmnopqrstuvwxyz" - 2) (10 - 2).
Proof.
  split; [lia|]. split.
  - assert (Hconf : 0 <= 2 < 26) by lia.
    exact (proj1 (proj2 (split_chunk_count "abcdefghijklmnopqrstuvwxyz" 26 2 Hconf))).
  - assert (Hconf : 0 <= 2 < 10) by lia.
    apply (proj2 (proj2 (split_chunk_count "abcdefghijklmnopqrstuvwxyz" 10 2 Hconf)));
      reflexivity.
Defined.



(** C6 on a collection of three chunks. *)
Lemma mmr_search_lambda_one_witness :
  (3 <= 20)%nat /\
  mmr_search Z length_embed nearness nearness (length_embed "query") 3 20 1 store_ab
  = similarity_search Z length_embed nearness (length_embed "query") 3 store_ab.
Proof.
  split; [lia|]. apply mmr_search_lambda_one. lia.
Defined.

(** C7 fails as stated: after three reports on the topic B, the report on
    the topic A is added with success, and [verify_ingestion "A"] returns
    [found = False], the three best-ranked chunks being those of B. *)
Lemma verify_after_add_not_found :
  let run := add_report chunker_split_text rag0 env_ok report_a "A" None 1000 200 store_b in
  100 <= len (strip report_a) /\
  (exists result, run.1 = inr result /\ succeeded result) /\
  exists verdict,
    verify_ingestion length_rank rag0 env_ok "A" None run.2 = (inr verdict, run.2) /\
    verdict !! "found" = Some (VBool false) /\
    verdict !! "chunks_found" = Some (VInt 0).
Proof.
  cbv zeta. split; [vm_compute; discriminate|].
  split; [eexists; split; vm_compute; reflexivity|].
  eexists. split; [vm_compute; reflexivity|]. split; vm_compute; reflexivity.
Qed.

(** C7, as the code has it, on a collection that holds one chunk of another
    topic. *)
Lemma verify_after_add_witness :
  (forall query store, length_rank query store ≡ₚ store) /\
  100 <= len (strip report_a) /\
  default ∅ (@None (gmap string pyval)) !! "topic" = None /\
  store_fault env_ok = None /\
  (length (filter (fun doc => ~ has_topic "A" doc) store_ab) < 3)%nat /\
  exists result st',
    add_report chunker_split_text rag0 env_ok report_a "A" None 1000 200 store_ab
    = (inr result, st') /\
    succeeded result /\
    exists verdict chunks_found,
      verify_ingestion length_rank rag0 env_ok "A" None st' = (inr verdict, st') /\
      verdict !! "found" = Some (VBool true) /\
      verdict !! "chunks_found" = Some (VInt chunks_found) /\
      1 <= chunks_found.
Proof.
  assert (Hlen : 100 <= len (strip report_a)) by (vm_compute; discriminate).
  assert (Hfew : (length (filter (fun doc => ~ has_topic "A" doc) store_ab) < 3)%nat)
    by (vm_compute; lia).
  pose proof (add_report_run chunker_split_text rag0 env_ok report_a "A" None 1000 200
                store_ab) as Hrun.
  assert (Hok : succeeded
                  (ingest_outcome chunker_split_text rag0 env_ok report_a "A" None
                     1000 200).1) by (vm_compute; reflexivity).
  split; [exact length_rank_permutation|]. split; [exact Hlen|].
  split; [reflexivity|]. split; [reflexivity|]. split; [exact Hfew|].
  eexists _, _. split; [exact Hrun|]. split; [exact Hok|].
  exact (verify_after_add chunker_split_text length_rank length_rank_permutation
           rag0 env_ok env_ok report_a "A" None 1000 200 store_ab _ _
           Hlen eq_refl Hrun Hok eq_refl Hfew).
Defined.

(** C8 on three reports, the second one empty. *)
Lemma add_multiple_reports_continues_witness :
  Forall (fun er => has_content_and_topic er.2) batch0 /\
  exists results,
    add_multiple_reports chunker_split_text rag0 batch0 store_b
    = (inr results,
       store_b ++ concat ((fun er => (add_one_report chunker_split_text rag0 er []).2)
                            <$> batch0)) /\
    (forall st0,
        Some <$> details results
        = (fun er => returned (add_one_report chunker_split_text rag0 er st0)) <$> batch0) /\
    length (details results) = length batch0 /\
    successful results = Z.of_nat (length (filter succeeded (details results))) /\
    failed results = Z.of_nat (length (filter (fun r => ~ succeeded r) (details results))) /\
    successful results + failed results = Z.of_nat (length batch0).
Proof.
  assert (Hwf : Forall (fun er => has_content_and_topic er.2) batch0).
  { repeat constructor; by eexists. }
  split; [exact Hwf|]. exact (add_multiple_reports_continues _ _ _ _ Hwf).
Defined.

(** Two successes and one failure; the chunks of the first and of the third
    report are in the collection. *)
Example add_multiple_reports_scenario :
  match add_multiple_reports chunker_split_text rag0 batch0 [] with
  | (inr results, st') =>
      successful results = 2 /\ failed results = 1 /\
      (fun r => r !! "success") <$> details results
      = [Some (VBool true); Some (VBool false); Some (VBool true)] /\
      (fun doc => metadata doc !! "topic") <$> st' = [Some (VStr "A"); Some (VStr "B")]
  | _ => False
  end.
Proof. vm_compute. auto. Qed.

(** C9 fails as stated: with the store unreachable, [list_ingested_reports]
    returns the empty list, the value it returns on an empty collection,
    although the collection holds a report. *)
Lemma store_failure_swallowed :
  list_ingested_reports length_rank rag0 env_unreachable store_b = (inr [], store_b) /\
  list_ingested_reports length_rank rag0 env_ok [] = (inr [], []) /\
  exists report, list_ingested_reports length_rank rag0 env_ok store_b = (inr [report], store_b).
Proof.
  split; [vm_compute; reflexivity|]. split; [vm_compute; reflexivity|].
  eexists. vm_compute. reflexivity.
Qed.

(** C10 fails as stated: with the store unreachable, the dict returned by
    [verify_ingestion] has no [chunks_found], [total_results] or
    [sample_content]. *)
Lemma verify_ingestion_fault_fields :
  exists result,
    verify_ingestion length_rank rag0 env_unreachable "B" None store_b
    = (inr result, store_b) /\
    result !! "found" = Some (VBool false) /\
    result !! "chunks_found" = None /\
    result !! "total_results" = None /\
    result !! "sample_content" = None.
Proof.
  eexists. split; [vm_compute; reflexivity|]. repeat split; vm_compute; reflexivity.
Qed.

(** * More of the code *)

(** ** [_truncate_output] *)

Lemma str_append_length s1 s2 :
  String.length (s1 +:+ s2) = (String.length s1 + String.length s2)%nat.
Proof.
  induction s1 as [|c s1 IH]; [done|].
  change (S (String.length (s1 +:+ s2)) = S (String.length s1 + String.length s2)).
  by rewrite IH.
Qed.

Lemma str_prefix_append s1 s2 : str_prefix (String.length s1) (s1 +:+ s2) = s1.
Proof.
  unfold str_prefix. induction s1 as [|c s1 IH]; [by destruct s2|].
  change (String c (substring 0 (String.length s1) (s1 +:+ s2)) = String c s1).
  by rewrite IH.
Qed.

Lemma truncation_note_length max_chars :
  len (truncation_note max_chars) = 39 + len (str_of_int max_chars).
Proof.
  unfold truncation_note, len, NL. rewrite !str_append_length. simpl. lia.
Qed.

Lemma truncate_output_short text max_chars :
  len text <= max_chars -> _truncate_output text max_chars = text.
Proof.
  intros Hfit. unfold _truncate_output. apply Z.leb_le in Hfit. by rewrite Hfit.
Qed.

Lemma truncate_output_long text max_chars :
  0 <= max_chars < len text ->
  _truncate_output text max_chars
  = str_prefix (Z.to_nat max_chars) text +:+ truncation_note max_chars.
Proof.
  intros Hlong. unfold _truncate_output, py_slice_to.
  assert (Hcut : (len text <=? max_chars) = false) by (apply Z.leb_gt; lia).
  assert (Hpos : (0 <=? max_chars) = true) by (apply Z.leb_le; lia).
  by rewrite Hcut, Hpos.
Qed.

(** X1. For a non-negative limit, a text within the limit is returned as it
    is; a longer one is cut to its first [max_chars] characters, followed by
    the note, so the result has [max_chars] characters plus the note (39
    characters and the digits of the limit): more than the limit. *)
Theorem truncate_output_length text max_chars :
  0 <= max_chars ->
  (len text <= max_chars -> _truncate_output text max_chars = text) /\
  (max_chars < len text ->
   str_prefix (Z.to_nat max_chars) (_truncate_output text max_chars)
   = str_prefix (Z.to_nat max_chars) text /\
   len (_truncate_output text max_chars)
   = max_chars + 39 + len (str_of_int max_chars)).
Proof.
  intros Hm. split; [apply truncate_output_short|].
  intros Hlong. rewrite truncate_output_long by lia.
  assert (Hpre : String.length (str_prefix (Z.to_nat max_chars) text) = Z.to_nat max_chars).
  { rewrite str_prefix_length. unfold len in Hlong. lia. }
  split.
  - rewrite <- Hpre at 1. by rewrite str_prefix_append.
  - unfold len. rewrite str_append_length, Hpre.
    pose proof (truncation_note_length max_chars) as Hnote. unfold len in Hnote. lia.
Qed.

(** X2. Truncating twice with the same non-negative limit is truncating
    once. *)
Theorem truncate_output_idempotent text max_chars :
  0 <= max_chars ->
  _truncate_output (_truncate_output text max_chars) max_chars
  = _truncate_output text max_chars.
Proof.
  intros Hm. destruct (Z.le_gt_cases (len text) max_chars) as [Hfit|Hlong].
  - rewrite (truncate_output_short text) by done.
    by apply truncate_output_short.
  - rewrite (truncate_output_long text) by lia.
    assert (Hpre : String.length (str_prefix (Z.to_nat max_chars) text) = Z.to_nat max_chars).
    { rewrite str_prefix_length. unfold len in Hlong. lia. }
    rewrite truncate_output_long.
    + rewrite <- Hpre at 1. by rewrite str_prefix_append.
    + unfold len. rewrite str_append_length, Hpre.
      pose proof (truncation_note_length max_chars) as Hnote. unfold len in Hnote. lia.
Qed.

(** ** [fix_markdown_hierarchy] *)

Lemma split_lines_not_nil s : split_lines s <> [].
Proof.
  destruct s as [|c s]; simpl; [done|].
  destruct (Ascii.eqb c "010"); [done|]. by destruct (split_lines s).
Qed.

Lemma join_lines_cons line lines :
  lines <> [] -> join_lines (line :: lines) = line +:+ NL +:+ join_lines lines.
Proof. by destruct lines. Qed.

Lemma join_split_lines s : join_lines (split_lines s) = s.
Proof.
  induction s as [|c s IH]; [done|]. cbn [split_lines].
  destruct (Ascii.eqb_spec c "010") as [->|Hc].
  - rewrite join_lines_cons by apply split_lines_not_nil. by rewrite IH.
  - pose proof (split_lines_not_nil s) as Hne.
    destruct (split_lines s) as [|line lines]; [done|].
    destruct lines as [|line' lines].
    + simpl in *. by rewrite IH.
    + rewrite join_lines_cons by done. rewrite join_lines_cons in IH by done.
      change (String c (line +:+ NL +:+ join_lines (line' :: lines)) = String c s).
      by rewrite IH.
Qed.

Lemma split_lines_no_newline s : Forall (fun line => no_newline line = true) (split_lines s).
Proof.
  induction s as [|c s IH]; [by repeat constructor|]. cbn [split_lines].
  destruct (Ascii.eqb_spec c "010") as [->|Hc].
  - by constructor.
  - destruct (split_lines s) as [|line lines]; [repeat constructor|].
    + simpl. by destruct (Ascii.eqb_spec c "010").
    + apply Forall_cons in IH as [Hline Hlines]. constructor; [|done].
      simpl. rewrite Hline. by destruct (Ascii.eqb_spec c "010").
Qed.

Lemma split_lines_line line : no_newline line = true -> split_lines line = [line].
Proof.
  induction line as [|c line IH]; [done|]. simpl.
  destruct (Ascii.eqb c "010"); [done|]. simpl. intros Hline. by rewrite IH.
Qed.

Lemma split_lines_append line s :
  no_newline line = true ->
  split_lines (line +:+ NL +:+ s) = line :: split_lines s.
Proof.
  induction line as [|c line IH]; [done|]. simpl.
  destruct (Ascii.eqb c "010") eqn:Hc; [done|]. simpl. intros Hline.
  change (match split_lines (line +:+ NL +:+ s) with
          | [] => [String c ""]
          | l :: ls => String c l :: ls
          end = String c line :: split_lines s).
  by rewrite IH.
Qed.

Lemma split_join_lines lines :
  lines <> [] ->
  Forall (fun line => no_newline line = true) lines ->
  split_lines (join_lines lines) = lines.
Proof.
  induction lines as [|line lines IH]; [done|]. intros _ Hall.
  apply Forall_cons in Hall as [Hline Hall].
  destruct lines as [|line' lines].
  - by apply split_lines_line.
  - rewrite join_lines_cons by done. rewrite split_lines_append by done.
    by rewrite IH.
Qed.

(** What the loop does, by the place of the first heading. *)
Lemma fix_first_heading_none lines :
  Forall (fun line => is_heading line = false) lines ->
  fix_first_heading lines = None.
Proof.
  induction 1 as [|line lines Hline _ IH]; [done|].
  simpl. by rewrite Hline, IH.
Qed.

Lemma fix_first_heading_some pre line post :
  Forall (fun line => is_heading line = false) pre ->
  is_heading line = true ->
  fix_first_heading (pre ++ line :: post)
  = Some (pre ++ (if 1 <? heading_level line
                  then "# " +:+ strip (lstrip_hash line)
                  else line) :: post).
Proof.
  induction 1 as [|l pre Hl _ IH]; intros Hline; simpl.
  - by rewrite Hline.
  - by rewrite Hl, IH.
Qed.

Lemma first_heading_split lines :
  Forall (fun line => is_heading line = false) lines \/
  exists pre line post,
    lines = pre ++ line :: post /\
    Forall (fun line => is_heading line = false) pre /\
    is_heading line = true.
Proof.
  induction lines as [|l lines IH]; [by left|].
  destruct (is_heading l) eqn:Hl.
  - right. exists [], l, lines. by repeat split.
  - destruct IH as [Hnone|(pre & line & post & -> & Hpre & Hline)].
    + left. by constructor.
    + right. exists (l :: pre), line, post. repeat split; [|done]. by constructor.
Qed.

(** X3. A text in which no line is a heading gets the title line
    ["# Research Report"] and an empty line in front, and is otherwise
    unchanged. *)
Theorem fix_markdown_hierarchy_no_heading text :
  Forall (fun line => is_heading line = false) (split_lines text) ->
  fix_markdown_hierarchy text = "# Research Report" +:+ NL +:+ NL +:+ text.
Proof.
  intros Hnone. unfold fix_markdown_hierarchy.
  rewrite fix_first_heading_none by done.
  rewrite join_lines_cons by apply split_lines_not_nil.
  rewrite join_split_lines. by rewrite !str_append_assoc.
Qed.

(** X4. Only the first heading line can change. When the number of ['#'] at
    its very beginning is at most one (a level-1 heading, or a heading that
    whitespace precedes), the text is returned as it is; otherwise that line
    becomes ["# "] followed by its text without the leading ['#'] and the
    surrounding whitespace, and every other line is kept. *)
Theorem fix_markdown_hierarchy_first_heading text pre line post :
  split_lines text = pre ++ line :: post ->
  Forall (fun line => is_heading line = false) pre ->
  is_heading line = true ->
  (heading_level line <= 1 -> fix_markdown_hierarchy text = text) /\
  (1 < heading_level line ->
   fix_markdown_hierarchy text
   = join_lines (pre ++ ("# " +:+ strip (lstrip_hash line)) :: post)).
Proof.
  intros Hsplit Hpre Hline. unfold fix_markdown_hierarchy.
  rewrite Hsplit, fix_first_heading_some by done. split; intros Hlevel.
  - assert (Hkeep : (1 <? heading_level line) = false) by (apply Z.ltb_ge; lia).
    rewrite Hkeep, <- Hsplit. apply join_split_lines.
  - apply Z.ltb_lt in Hlevel. by rewrite Hlevel.
Qed.

Lemma no_newline_lstrip s : no_newline s = true -> no_newline (lstrip s) = true.
Proof.
  induction s as [|c s IH]; [done|]. simpl.
  destruct (isspace c); [|done]. intros [_ Hs]%andb_true_iff. by apply IH.
Qed.

Lemma no_newline_rstrip s : no_newline s = true -> no_newline (rstrip s) = true.
Proof.
  induction s as [|c s IH]; [done|]. simpl.
  intros [Hc Hs]%andb_true_iff. specialize (IH Hs).
  destruct (rstrip s) as [|c' r].
  - destruct (isspace c); [done|]. simpl. by rewrite Hc.
  - simpl in *. by rewrite Hc, IH.
Qed.

Lemma no_newline_lstrip_hash s : no_newline s = true -> no_newline (lstrip_hash s) = true.
Proof.
  induction s as [|c s IH]; [done|]. simpl.
  destruct (Ascii.eqb c "#"); [|done]. intros [_ Hs]%andb_true_iff. by apply IH.
Qed.

Lemma no_newline_rewritten line :
  no_newline line = true -> no_newline ("# " +:+ strip (lstrip_hash line)) = true.
Proof.
  intros Hline. change (no_newline (strip (lstrip_hash line)) = true).
  unfold strip. by apply no_newline_rstrip, no_newline_lstrip, no_newline_lstrip_hash.
Qed.

Lemma is_heading_hash s : is_heading (String "#" s) = true.
Proof.
  unfold is_heading, strip. cbn [lstrip isspace]. simpl.
  by destruct (rstrip s).
Qed.

Lemma heading_level_rewritten s : heading_level ("# " +:+ s) = 1.
Proof.
  unfold heading_level, len.
  change (lstrip_hash ("# " +:+ s)) with (String " " s).
  change (String.length ("# " +:+ s)) with (S (S (String.length s))).
  simpl. lia.
Qed.

(** A text whose first heading has at most one ['#'] at its beginning is
    left as it is. *)
Lemma fix_markdown_hierarchy_unchanged text pre line post :
  split_lines text = pre ++ line :: post ->
  Forall (fun line => is_heading line = false) pre ->
  is_heading line = true ->
  heading_level line <= 1 ->
  fix_markdown_hierarchy text = text.
Proof.
  intros Hsplit Hpre Hline Hlevel. unfold fix_markdown_hierarchy.
  rewrite Hsplit, fix_first_heading_some by done.
  assert (Hkeep : (1 <? heading_level line) = false) by (apply Z.ltb_ge; lia).
  rewrite Hkeep, <- Hsplit. apply join_split_lines.
Qed.

(** X5. Fixing a text that has been fixed changes nothing. *)
Theorem fix_markdown_hierarchy_idempotent text :
  fix_markdown_hierarchy (fix_markdown_hierarchy text) = fix_markdown_hierarchy text.
Proof.
  destruct (first_heading_split (split_lines text))
    as [Hnone|(pre & line & post & Hsplit & Hpre & Hline)].
  - unfold fix_markdown_hierarchy at 2 3. rewrite fix_first_heading_none by done.
    apply (fix_markdown_hierarchy_unchanged _ [] "# Research Report"
             ("" :: split_lines text)); [|done|done|done].
    rewrite join_lines_cons by apply split_lines_not_nil.
    rewrite join_split_lines, str_append_assoc.
    rewrite split_lines_append by done.
    reflexivity.
  - pose proof (split_lines_no_newline text) as Hlines. rewrite Hsplit in Hlines.
    apply Forall_app in Hlines as [Hpre_nl Hlines].
    apply Forall_cons in Hlines as [Hline_nl Hpost_nl].
    unfold fix_markdown_hierarchy at 2 3.
    rewrite Hsplit, fix_first_heading_some by done.
    set (line' := if 1 <? heading_level line
                  then "# " +:+ strip (lstrip_hash line) else line).
    apply (fix_markdown_hierarchy_unchanged _ pre line' post); [|done|..].
    + apply split_join_lines; [by destruct pre|].
      apply Forall_app. split; [done|]. constructor; [|done].
      unfold line'. destruct (1 <? heading_level line); [|done].
      by apply no_newline_rewritten.
    + unfold line'. destruct (1 <? heading_level line); [|done].
      apply is_heading_hash.
    + unfold line'. destruct (1 <? heading_level line) eqn:Hlevel.
      * rewrite heading_level_rewritten. lia.
      * apply Z.ltb_ge in Hlevel. lia.
Qed.

(** ** More on [add_report] and [add_multiple_reports] *)

Lemma lstrip_head s :
  lstrip s = "" \/ exists c r, lstrip s = String c r /\ isspace c = false.
Proof.
  induction s as [|c s IH]; [by left|]. simpl.
  destruct (isspace c) eqn:Hc; [done|]. right. by exists c, s.
Qed.

Lemma rstrip_head c s :
  isspace c = false -> exists r, rstrip (String c s) = String c r.
Proof.
  intros Hc. simpl. rewrite Hc. destruct (rstrip s); by eexists.
Qed.

Lemma rstrip_idempotent s : rstrip (rstrip s) = rstrip s.
Proof.
  induction s as [|c s IH]; [done|]. simpl.
  destruct (rstrip s) as [|c' r] eqn:Hr.
  - destruct (isspace c) eqn:Hc; [done|]. simpl. by rewrite Hc.
  - simpl. simpl in IH. by rewrite IH.
Qed.

Lemma strip_idempotent s : strip (strip s) = strip s.
Proof.
  unfold strip. destruct (lstrip_head s) as [->|(c & r & -> & Hc)]; [done|].
  destruct (rstrip_head c r Hc) as [r' Hr]. rewrite Hr.
  cbn [lstrip]. rewrite Hc, <- Hr. apply rstrip_idempotent.
Qed.

Lemma valid_chunks_stripped chunks :
  Forall (fun chunk => chunk <> "" /\ strip chunk = chunk) (valid_chunks chunks).
Proof.
  unfold valid_chunks. apply Forall_fmap, Forall_forall. intros chunk Hin.
  apply list_elem_of_filter in Hin as [Hne _]. simpl.
  split; [done|apply strip_idempotent].
Qed.

Lemma valid_chunks_blank chunks :
  Forall (fun chunk => strip chunk = "") chunks -> valid_chunks chunks = [].
Proof.
  intros Hblank. unfold valid_chunks. rewrite filter_none; [done|].
  eapply Forall_impl; [exact Hblank|]. intros chunk Hc Hne. by apply Hne.
Qed.

Section MoreIngestionFacts.

Variable split_text : Z -> Z -> list string -> string -> string + list string.

Lemma long_enough content :
  100 <= len (strip content) ->
  String.eqb content "" || (len (strip content) <? 100) = false.
Proof.
  intros Hlen. apply orb_false_iff. split.
  - apply String.eqb_neq. intros ->. by vm_compute in Hlen.
  - apply Z.ltb_ge. lia.
Qed.

(** X6. An exception raised by the splitter, or by the opening of the
    collection once there are chunks, does not leave [add_report]: the call
    returns [success = False] with the text of the exception as ['error'],
    the topic and the message ["Failed to add report: ..."], and the
    collection is as before. *)
Theorem add_report_exception_result
    self env content topic given chunk_size chunk_overlap st e :
  100 <= len (strip content) ->
  (split_text chunk_size chunk_overlap separators content = inl e \/
   exists chunks,
     split_text chunk_size chunk_overlap separators content = inr chunks /\
     valid_chunks chunks <> [] /\
     chroma_fault env = Some e) ->
  exists result,
    add_report split_text self env content topic given chunk_size chunk_overlap st
    = (inr result, st) /\
    result !! "success" = Some (VBool false) /\
    result !! "error" = Some (VStr e) /\
    result !! "topic" = Some (VStr topic) /\
    result !! "message" = Some (VStr ("Failed to add report: " +:+ e)) /\
    result !! "chunks_added" = None.
Proof.
  intros Hlen Hfault. exists (failed_result topic e). split; [|done].
  rewrite add_report_run. unfold ingest_outcome. rewrite long_enough by done.
  destruct Hfault as [->|(chunks & -> & Hne & Hchroma)].
  - simpl. by rewrite app_nil_r.
  - destruct (valid_chunks chunks); [done|]. rewrite Hchroma. simpl.
    by rewrite app_nil_r.
Qed.

(** X7. When every chunk that the splitter returns is empty or whitespace,
    [add_report] returns [success = False] with the error
    ["No valid text chunks could be generated from report"]; the collection
    is not opened and stays as it is, whatever the store would have done. *)
Theorem add_report_no_valid_chunks
    self content topic given chunk_size chunk_overlap st chunks :
  100 <= len (strip content) ->
  split_text chunk_size chunk_overlap separators content = inr chunks ->
  Forall (fun chunk => strip chunk = "") chunks ->
  exists result,
    (forall env',
        add_report split_text self env' content topic given chunk_size chunk_overlap st
        = (inr result, st)) /\
    result !! "success" = Some (VBool false) /\
    result !! "error" = Some (VStr "No valid text chunks could be generated from report").
Proof.
  intros Hlen Hsplit Hblank. exists (no_chunks_result topic). split; [|done].
  intros env'. rewrite add_report_run. unfold ingest_outcome.
  rewrite long_enough, Hsplit, valid_chunks_blank by done. simpl. by rewrite app_nil_r.
Qed.

(** X8. Every entry of the caller's metadata whose value is not [None] (a
    string, an integer or a boolean) is on every persisted chunk, except
    under the keys ['chunk_id'] and ['total_chunks'], which the loop writes
    afterwards. *)
Theorem add_report_caller_metadata_kept
    self env content topic given chunk_size chunk_overlap st result st' k v :
  add_report split_text self env content topic (Some given) chunk_size chunk_overlap st
  = (inr result, st') ->
  given !! k = Some v ->
  v <> VNone ->
  k <> "chunk_id" -> k <> "total_chunks" ->
  exists docs,
    st' = st ++ docs /\
    Forall (fun doc => metadata doc !! k = Some v) docs.
Proof.
  rewrite add_report_run. intros [= _ <-] Hk _ Hid Htot.
  eexists. split; [done|].
  destruct (ingest_outcome_documents split_text self env content topic (Some given)
              chunk_size chunk_overlap) as [chunks ->].
  apply Forall_forall. intros doc Hin.
  rewrite (make_documents_metadata _ _ _ _ Hin) by done.
  rewrite doc_metadata_of_lookup. simpl. by rewrite Hk.
Qed.

(** X9. The text of every persisted chunk is not empty and has no
    whitespace at its beginning or at its end. *)
Theorem add_report_chunks_stripped
    self env content topic given chunk_size chunk_overlap st :
  exists result docs,
    add_report split_text self env content topic given chunk_size chunk_overlap st
    = (inr result, st ++ docs) /\
    Forall (fun doc => page_content doc <> "" /\
                       strip (page_content doc) = page_content doc) docs.
Proof.
  rewrite add_report_run. eexists _, _. split; [done|].
  assert (Hdocs : exists chunks,
             (ingest_outcome split_text self env content topic given
                chunk_size chunk_overlap).2
             = make_documents (doc_metadata_of self env topic given) (valid_chunks chunks)).
  { unfold ingest_outcome. repeat case_match; simpl; try (by exists []).
    eexists. by f_equal. }
  destruct Hdocs as [chunks ->].
  apply Forall_forall. intros doc Hin.
  apply list_elem_of_lookup in Hin as [i Hi].
  apply make_documents_lookup in Hi as (chunk & Hchunk & ->). simpl.
  pose proof (valid_chunks_stripped chunks) as Hall.
  rewrite Forall_forall in Hall. apply Hall. by eapply list_elem_of_lookup_2.
Qed.

End MoreIngestionFacts.

Section RepeatedIngestion.

Variable split_text : Z -> Z -> list string -> string -> string + list string.

(** X10. Nothing is deduplicated: when a report has been ingested and the
    same call is made again while the store works, the second call succeeds
    as well and appends chunks with the same texts, the same [chunk_id]s and
    the same [chunks_added]. *)
Theorem add_report_twice_duplicates
    self env env' content topic given chunk_size chunk_overlap st result st' :
  add_report split_text self env content topic given chunk_size chunk_overlap st
  = (inr result, st') ->
  succeeded result ->
  chroma_fault env' = None -> add_fault env' = None ->
  exists result' docs docs',
    st' = st ++ docs /\
    add_report split_text self env' content topic given chunk_size chunk_overlap st'
    = (inr result', st ++ docs ++ docs') /\
    succeeded result' /\
    result' !! "chunks_added" = result !! "chunks_added" /\
    page_content <$> docs' = page_content <$> docs /\
    (fun doc => metadata doc !! "chunk_id") <$> docs'
    = (fun doc => metadata doc !! "chunk_id") <$> docs /\
    docs <> [].
Proof.
  rewrite add_report_run. intros [= <- <-] Hok Hchroma Hadd.
  apply ingest_outcome_success in Hok as (chunks & Hsplit & Hne & Hlen & Hres & Hdocs).
  rewrite Hres, Hdocs. rewrite add_report_run.
  assert (Hsecond : ingest_outcome split_text self env' content topic given
                      chunk_size chunk_overlap
                    = (added_result self topic (Z.of_nat (length (valid_chunks chunks))),
                       make_documents (doc_metadata_of self env' topic given)
                         (valid_chunks chunks))).
  { unfold ingest_outcome. rewrite long_enough, Hsplit, Hchroma, Hadd by done.
    by destruct (valid_chunks chunks). }
  rewrite Hsecond. eexists _, _, _. split; [done|]. cbn [fst snd].
  split; [by rewrite app_assoc|]. split; [done|]. split; [done|].
  split; [|split].
  - apply list_eq. intros i. rewrite !list_lookup_fmap. unfold make_documents.
    rewrite !list_lookup_imap. by destruct (valid_chunks chunks !! i).
  - apply list_eq. intros i. rewrite !list_lookup_fmap. unfold make_documents.
    rewrite !list_lookup_imap. destruct (valid_chunks chunks !! i); [|done]. simpl.
    rewrite !(lookup_insert_ne _ "total_chunks") by done.
    by rewrite !lookup_insert_eq.
  - intros Hnil. apply (f_equal length) in Hnil.
    rewrite make_documents_length in Hnil. by destruct (valid_chunks chunks).
Qed.

Lemma add_multiple_reports_loop_app self pre rest : forall results st,
  add_multiple_reports_loop split_text self (pre ++ rest) results st =
  match add_multiple_reports_loop split_text self pre results st with
  | (inr results', st') => add_multiple_reports_loop split_text self rest results' st'
  | (inl e, st') => (inl e, st')
  end.
Proof.
  induction pre as [|[env report] pre IH]; intros results st; [done|].
  cbn [app add_multiple_reports_loop]. unfold bind at 1 5.
  destruct (getitem (rep_content report) "content" st) as [[e|content] st1]; [done|].
  unfold bind at 1 4.
  destruct (getitem (rep_topic report) "topic" st1) as [[e|topic] st2]; [done|].
  unfold bind at 1 3.
  destruct (add_report _ _ _ _ _ _ _ _ st2) as [[e|result] st3]; [done|].
  unfold bind at 1 2.
  destruct (getitem (result !! "success") "success" st3) as [[e|success] st4]; [done|].
  apply IH.
Qed.

(** X11. A report without the key ['content'], or with it and without the
    key ['topic'], stops the batch with a [KeyError] that leaves
    [add_multiple_reports]: no result is returned, the reports before it
    stay ingested and the ones after it are not looked at. *)
Theorem add_multiple_reports_missing_key self pre env report post st :
  Forall (fun er => has_content_and_topic er.2) pre ->
  rep_content report = None \/ rep_topic report = None ->
  add_multiple_reports split_text self (pre ++ (env, report) :: post) st
  = (inl (match rep_content report with Some _ => "'topic'" | None => "'content'" end),
     st ++ concat ((fun er => (add_one_report split_text self er []).2) <$> pre)).
Proof.
  intros Hpre Hmissing. unfold add_multiple_reports.
  rewrite add_multiple_reports_loop_app.
  destruct (add_multiple_reports_loop_run split_text self pre (mkBatchResults 0 0 []) st Hpre)
    as (ds & _ & ->).
  cbn [add_multiple_reports_loop]. unfold bind at 1.
  destruct (rep_content report) as [content|]; [|done].
  destruct Hmissing as [Hc|Ht]; [done|]. rewrite Ht.
  unfold getitem at 1, ret, bind, getitem, raise. done.
Qed.

End RepeatedIngestion.

(** ** More on [verify_ingestion] and [list_ingested_reports] *)

Lemma py_eqb_refl a : py_eqb a a = true.
Proof.
  destruct a as [|b|z|s]; simpl; [done|by destruct b|apply Z.eqb_refl|apply String.eqb_refl].
Qed.

Lemma py_eqb_sym a b : py_eqb a b = py_eqb b a.
Proof.
  destruct a as [|x|x|x], b as [|y|y|y]; simpl; try done.
  - by destruct x, y.
  - apply Z.eqb_sym.
  - apply String.eqb_sym.
Qed.

Lemma py_eqb_trans a b c : py_eqb a b = true -> py_eqb b c = true -> py_eqb a c = true.
Proof.
  destruct a as [|x|x|x], b as [|y|y|y], c as [|z|z|z]; simpl; try done;
    rewrite ?Z.eqb_eq, ?String.eqb_eq; try (destruct x); try (destruct y);
    try (destruct z); simpl; try done; try lia; congruence.
Qed.

Lemma py_eqb_truthy a b : py_eqb a b = true -> truthy a = truthy b.
Proof.
  destruct a as [|x|x|x], b as [|y|y|y]; simpl; try done;
    rewrite ?Z.eqb_eq, ?String.eqb_eq; try (destruct x); try (destruct y); simpl;
    try done; try (intros <-; done); try (intros ->; done).
Qed.

Lemma topic_in_spec topic topics :
  topic_in topic topics = true <->
  exists kv, kv ∈ topics /\ py_eqb kv.1 topic = true.
Proof.
  unfold topic_in. rewrite existsb_exists. split; intros (kv & Hin & Heq); exists kv.
  - by rewrite list_elem_of_In.
  - by rewrite <- list_elem_of_In.
Qed.

Lemma record_topic_spec topics doc :
  record_topic topics doc =
  if truthy (topic_of doc) && negb (topic_in (topic_of doc) topics)
  then topics ++ [(topic_of doc, report_entry doc)]
  else topics.
Proof. done. Qed.

(** The dict [topics] after the loop over [docs]. *)
Lemma listed_topics_invariant docs :
  let topics := fold_left record_topic docs [] in
  (length topics <= length docs)%nat /\
  (forall i j kv kv',
     (i < j)%nat -> topics !! i = Some kv -> topics !! j = Some kv' ->
     py_eqb kv.1 kv'.1 = false) /\
  (forall kv, kv ∈ topics ->
     truthy kv.1 = true /\
     exists pre doc post,
       docs = pre ++ doc :: post /\
       kv = (topic_of doc, report_entry doc) /\
       Forall (fun d => py_eqb (topic_of d) (topic_of doc) = false) pre) /\
  (forall doc, doc ∈ docs -> truthy (topic_of doc) = true ->
     topic_in (topic_of doc) topics = true).
Proof.
  induction docs as [|d docs IH] using rev_ind.
  { cbn. split; [lia|]. split; [done|]. split; intros ? Hin; by apply elem_of_nil in Hin. }
  cbv zeta in *. rewrite fold_left_app. cbn [fold_left].
  set (topics := fold_left record_topic docs []) in *.
  destruct IH as (Hlen & Hdistinct & Hfrom & Hall).
  rewrite record_topic_spec, length_app. cbn [length].
  destruct (truthy (topic_of d)) eqn:Htruthy; cbn [andb];
    [destruct (topic_in (topic_of d) topics) eqn:Hin; cbn [negb]|].
  - (* the topic is already there *)
    split; [lia|]. split; [done|]. split.
    + intros kv Hkv. destruct (Hfrom kv Hkv) as (Ht & pre & doc & post & -> & -> & Hpre).
      split; [done|]. exists pre, doc, (post ++ [d]). by rewrite <- app_assoc.
    + intros doc [Hdoc| ->%list_elem_of_singleton]%elem_of_app Ht; [by apply Hall|done].
  - (* a new topic *)
    assert (Hnew : forall kv, kv ∈ topics -> py_eqb kv.1 (topic_of d) = false).
    { intros kv Hkv. destruct (py_eqb kv.1 (topic_of d)) eqn:Heq; [|done].
      assert (topic_in (topic_of d) topics = true) by (apply topic_in_spec; eauto).
      congruence. }
    split; [rewrite length_app; simpl; lia|]. split; [|split].
    + intros i j kv kv' Hij Hi Hj.
      assert (Hjlen : (j < length (topics ++ [(topic_of d, report_entry d)]))%nat)
        by (by eapply lookup_lt_Some).
      rewrite length_app in Hjlen. simpl in Hjlen.
      rewrite lookup_app_l in Hi by lia.
      destruct (decide (j < length topics)%nat) as [Hjin|Hjout].
      * rewrite lookup_app_l in Hj by lia. exact (Hdistinct i j kv kv' Hij Hi Hj).
      * rewrite lookup_app_r in Hj by lia.
        replace (j - length topics)%nat with 0%nat in Hj by lia.
        injection Hj as <-. apply Hnew. by eapply list_elem_of_lookup_2.
    + intros kv [Hkv| ->%list_elem_of_singleton]%elem_of_app.
      * destruct (Hfrom kv Hkv) as (Ht & pre & doc & post & -> & -> & Hpre).
        split; [done|]. exists pre, doc, (post ++ [d]). by rewrite <- app_assoc.
      * split; [done|]. exists docs, d, []. split; [done|]. split; [done|].
        apply Forall_forall. intros d' Hd'.
        destruct (py_eqb (topic_of d') (topic_of d)) eqn:Heq; [|done].
        assert (Ht' : truthy (topic_of d') = true).
        { by rewrite (py_eqb_truthy _ _ Heq). }
        apply (Hall d' Hd') in Ht'. apply topic_in_spec in Ht' as (kv & Hkv & Hkv').
        rewrite <- (Hnew kv Hkv). symmetry. by eapply py_eqb_trans.
    + intros doc [Hdoc| ->%list_elem_of_singleton]%elem_of_app Ht.
      * apply topic_in_spec. apply (Hall doc Hdoc) in Ht.
        apply topic_in_spec in Ht as (kv & Hkv & Heq). exists kv. split; [|done].
        apply elem_of_app. by left.
      * apply topic_in_spec. eexists. split; [apply elem_of_app; right; by apply list_elem_of_singleton|].
        apply py_eqb_refl.
  - (* no topic, or an empty one *)
    split; [lia|]. split; [done|]. split.
    + intros kv Hkv. destruct (Hfrom kv Hkv) as (Ht & pre & doc & post & -> & -> & Hpre).
      split; [done|]. exists pre, doc, (post ++ [d]). by rewrite <- app_assoc.
    + intros doc [Hdoc| ->%list_elem_of_singleton]%elem_of_app Ht; [by apply Hall|congruence].
Qed.

Lemma report_entry_topic doc : dict_get (report_entry doc) "topic" = topic_of doc.
Proof. done. Qed.

Section MoreRetrievalFacts.

Variable rank : string -> list Document -> list Document.

(** X12. When the store answers, [list_ingested_reports] returns at most 100
    reports; each has exactly the keys ['topic'], ['created_at'] and
    ['chunks'] and a topic that is neither missing nor empty, and no two of
    them have the same topic. *)
Theorem list_ingested_reports_distinct_topics self env st :
  store_fault env = None ->
  exists reports,
    list_ingested_reports rank self env st = (inr reports, st) /\
    (length reports <= 100)%nat /\
    Forall (fun r => truthy (dict_get r "topic") = true /\
                     dom r = {[ "topic"; "created_at"; "chunks" ]}) reports /\
    (forall i j r r',
        (i < j)%nat -> reports !! i = Some r -> reports !! j = Some r' ->
        py_eqb (dict_get r "topic") (dict_get r' "topic") = false).
Proof.
  intros Hfault. rewrite list_ingested_reports_run, Hfault.
  set (docs := take 100 (rank "research" st)).
  destruct (listed_topics_invariant docs) as (Hlen & Hdistinct & Hfrom & _).
  eexists. split; [done|]. split; [|split].
  - rewrite length_fmap. etrans; [exact Hlen|]. unfold docs. rewrite length_take. lia.
  - apply Forall_fmap, Forall_forall. intros kv Hkv.
    destruct (Hfrom kv Hkv) as (Ht & pre & doc & post & _ & -> & _). simpl.
    split; [done|]. unfold report_entry. rewrite !dom_insert_L, dom_singleton_L. set_solver.
  - intros i j r r' Hij Hi Hj. rewrite list_lookup_fmap in Hi, Hj.
    destruct (fold_left record_topic docs [] !! i) as [kv|] eqn:Hkv; [|done].
    destruct (fold_left record_topic docs [] !! j) as [kv'|] eqn:Hkv'; [|done].
    injection Hi as <-. injection Hj as <-.
    destruct (Hfrom kv (list_elem_of_lookup_2 _ _ _ Hkv)) as (_ & ? & doc & ? & _ & Hdoc & _).
    destruct (Hfrom kv' (list_elem_of_lookup_2 _ _ _ Hkv')) as (_ & ? & doc' & ? & _ & Hdoc' & _).
    pose proof (Hdistinct i j kv kv' Hij Hkv Hkv') as Hne.
    rewrite Hdoc, Hdoc' in Hne |- *. done.
Qed.

(** X13. The listing is by first-seen topic over the 100 best-ranked chunks
    for the query ["research"]: each report is the entry of the best-ranked
    chunk of its topic (its [created_at], and its [total_chunks] as
    [chunks], 1 when it has none), and every topic that is neither missing
    nor empty among these chunks has its report. *)
Theorem list_ingested_reports_first_seen self env st :
  store_fault env = None ->
  let docs := take 100 (rank "research" st) in
  exists reports,
    list_ingested_reports rank self env st = (inr reports, st) /\
    (forall r, r ∈ reports ->
       exists pre doc post,
         docs = pre ++ doc :: post /\
         r = report_entry doc /\
         Forall (fun d => py_eqb (topic_of d) (topic_of doc) = false) pre) /\
    (forall doc, doc ∈ docs -> truthy (topic_of doc) = true ->
       exists r, r ∈ reports /\ py_eqb (dict_get r "topic") (topic_of doc) = true).
Proof.
  intros Hfault docs. rewrite list_ingested_reports_run, Hfault. fold docs.
  destruct (listed_topics_invariant docs) as (_ & _ & Hfrom & Hall).
  eexists. split; [done|]. split.
  - intros r (kv & -> & Hkv)%list_elem_of_fmap.
    destruct (Hfrom kv Hkv) as (_ & pre & doc & post & Hdocs & -> & Hpre).
    by exists pre, doc, post.
  - intros doc Hdoc Ht. apply (Hall doc Hdoc) in Ht.
    apply topic_in_spec in Ht as (kv & Hkv & Heq).
    exists kv.2. split; [apply list_elem_of_fmap; by exists kv|].
    destruct (Hfrom kv Hkv) as (_ & ? & doc' & ? & _ & -> & _). done.
Qed.

(** The ranking only reorders the stored documents. *)
Hypothesis rank_permutation : forall query store, rank query store ≡ₚ store.

(** X14. There is no false positive: when [verify_ingestion] returns
    [found = True], a chunk with the requested topic is stored. *)
Theorem verify_ingestion_sound self env topic query st verdict st' :
  verify_ingestion rank self env topic query st = (inr verdict, st') ->
  verdict !! "found" = Some (VBool true) ->
  st' = st /\ exists doc, doc ∈ st /\ has_topic topic doc.
Proof.
  rewrite verify_ingestion_run. destruct (store_fault env) as [e|].
  { intros [= <- <-]. done. }
  cbv zeta. intros [= <- <-] Hfound. split; [done|].
  unfold verify_result in Hfound.
  destruct (filter (has_topic topic) (take 3 (rank (search_query_of topic query) st)))
    as [|doc rest] eqn:Hfilter; [done|].
  assert (Hin : doc ∈ filter (has_topic topic)
                        (take 3 (rank (search_query_of topic query) st))).
  { rewrite Hfilter. by left. }
  apply list_elem_of_filter in Hin as [Htopic Hin].
  exists doc. split; [|done].
  rewrite <- (rank_permutation (search_query_of topic query) st).
  by eapply subseteq_take.
Qed.

End MoreRetrievalFacts.

Lemma record_topic_same_topic entry docs :
  truthy entry.1 = true ->
  Forall (fun doc => topic_of doc = entry.1) docs ->
  fold_left record_topic docs [entry] = [entry].
Proof.
  intros Ht. induction 1 as [|doc docs Hdoc _ IH]; [done|].
  cbn [fold_left]. rewrite record_topic_spec, Hdoc, Ht. cbn [topic_in existsb].
  by rewrite py_eqb_refl.
Qed.

Lemma record_topic_no_topic docs :
  Forall (fun doc => truthy (topic_of doc) = false) docs ->
  fold_left record_topic docs [] = [].
Proof.
  induction 1 as [|doc docs Hdoc _ IH]; [done|].
  cbn [fold_left]. by rewrite record_topic_spec, Hdoc.
Qed.

Section ListAfterAdd.

Variable split_text : Z -> Z -> list string -> string -> string + list string.
Variable rank : string -> list Document -> list Document.

(** The ranking only reorders the stored documents. *)
Hypothesis rank_reorders : forall query store, rank query store ≡ₚ store.

(** X15. After a successful [add_report] without metadata into an empty
    collection, [list_ingested_reports] shows the report as one entry with
    its topic, the clock reading of the call and [chunks_added] as
    [chunks]; but when the topic is the empty string, the list is empty:
    such a report is never listed. *)
Theorem list_after_add self env env' content topic chunk_size chunk_overlap result st' :
  add_report split_text self env content topic None chunk_size chunk_overlap []
  = (inr result, st') ->
  succeeded result ->
  store_fault env' = None ->
  exists n,
    result !! "chunks_added" = Some (VInt n) /\
    list_ingested_reports rank self env' st'
    = (inr (if String.eqb topic "" then []
            else [ {[ "topic" := VStr topic;
                      "created_at" := VStr (now_iso env);
                      "chunks" := VInt n ]} ]),
       st').
Proof.
  rewrite add_report_run. intros [= <- <-] Hok Hfault.
  apply ingest_outcome_success in Hok as (chunks & _ & Hne & _ & -> & ->).
  eexists. split; [reflexivity|]. cbn [app].
  rewrite list_ingested_reports_run, Hfault. f_equal. f_equal.
  set (docs := make_documents (doc_metadata_of self env topic None) (valid_chunks chunks)).
  set (n := VInt (Z.of_nat (length (valid_chunks chunks)))).
  assert (Hentry : forall doc, doc ∈ docs ->
            topic_of doc = VStr topic /\
            report_entry doc = {[ "topic" := VStr topic;
                                  "created_at" := VStr (now_iso env);
                                  "chunks" := n ]}).
  { intros doc Hin. unfold report_entry, topic_of, dict_get, dict_get_default.
    rewrite !(make_documents_metadata _ _ _ _ Hin) by done.
    rewrite !doc_metadata_of_lookup. cbn [default from_option]. rewrite !lookup_empty.
    apply list_elem_of_lookup in Hin as [i Hi].
    apply make_documents_lookup in Hi as (chunk & _ & ->). cbn [metadata].
    by rewrite lookup_insert_eq. }
  set (sample := take 100 (rank "research" docs)).
  assert (Hsample : forall doc, doc ∈ sample -> doc ∈ docs).
  { intros doc Hin. rewrite <- (rank_reorders "research" docs). by eapply subseteq_take. }
  assert (Hsome : sample <> []).
  { intros Hnil. apply (f_equal length) in Hnil. unfold sample in Hnil.
    rewrite length_take, (Permutation_length (rank_reorders _ _)) in Hnil.
    unfold docs in Hnil. rewrite make_documents_length in Hnil.
    destruct (valid_chunks chunks); [done|]. simpl in Hnil. lia. }
  destruct (String.eqb_spec topic "") as [->|Htopic].
  - rewrite record_topic_no_topic; [done|].
    apply Forall_forall. intros doc Hin.
    destruct (Hentry doc (Hsample doc Hin)) as [-> _]. done.
  - destruct sample as [|doc sample']; [done|]. cbn [fold_left].
    destruct (Hentry doc (Hsample doc ltac:(by left))) as [Hdoc_topic Hdoc_entry].
    assert (Hfirst : record_topic [] doc = [(VStr topic, report_entry doc)]).
    { rewrite record_topic_spec, Hdoc_topic. cbn.
      apply String.eqb_neq in Htopic. by rewrite Htopic. }
    rewrite Hfirst, record_topic_same_topic.
    + cbn. by rewrite Hdoc_entry.
    + cbn. apply String.eqb_neq in Htopic. by rewrite Htopic.
    + apply Forall_forall. intros doc' Hin'.
      apply (Hentry doc'). apply Hsample. by right.
Qed.

End ListAfterAdd.

(** ** [auto_ingest_report] *)

Section AutoIngestFacts.

Variable split_text : Z -> Z -> list string -> string -> string + list string.

Lemma state_metadata_no_defaults state k :
  k = "topic" \/ k = "source" \/ k = "created_at" \/ k = "collection" ->
  state_metadata state !! k = None.
Proof.
  intros Hk. destruct state as [s|]; simpl; [|done].
  destruct Hk as [-> | [-> | [-> | -> ]]]; by rewrite !lookup_insert_ne.
Qed.

(** X16. Without a directory, given or in [RAG_DIR], [auto_ingest_report]
    does not raise: it returns [{success: False, error: "RAG_DIR not
    configured..."}] with no other key (no ['topic'], no ['message']) and
    the collection is as before. *)
Theorem auto_ingest_report_not_configured ienv env content topic state rag_dir st :
  str_or rag_dir (getenv_RAG_DIR ienv) = None \/
  str_or rag_dir (getenv_RAG_DIR ienv) = Some "" ->
  auto_ingest_report split_text ienv env content topic state rag_dir st
  = (inr {[ "success" := VBool false; "error" := VStr RAG_DIR_not_configured ]}, st).
Proof.
  intros Hdir. unfold auto_ingest_report, try_except, bind, lift, RAGIngestion__init__.
  destruct Hdir as [Hdir|Hdir]; by rewrite Hdir.
Qed.

(** X17. [auto_ingest_report] always returns a dict with the key
    ['success'], and the chunks that it persists carry the topic given, the
    source ["research_report"] and the collection ["research_reports"]:
    the entries taken from [state] cannot replace them. With a [state], each
    chunk also has ['iteration_count'] and ['refinement_count'], 0 when
    [state] has none. *)
Theorem auto_ingest_report_metadata ienv env content topic state rag_dir st :
  exists (result : gmap string pyval) (success : bool) docs,
    auto_ingest_report split_text ienv env content topic state rag_dir st
    = (inr result, st ++ docs) /\
    result !! "success" = Some (VBool success) /\
    Forall (fun doc =>
              metadata doc !! "topic" = Some (VStr topic) /\
              metadata doc !! "source" = Some (VStr "research_report") /\
              metadata doc !! "collection" = Some (VStr "research_reports") /\
              forall s, state = Some s ->
                metadata doc !! "iteration_count"
                = Some (default (VInt 0) (state_iteration_count s)) /\
                metadata doc !! "refinement_count"
                = Some (default (VInt 0) (state_refinement_count s)))
           docs.
Proof.
  unfold auto_ingest_report, try_except, bind, lift, ret.
  destruct (RAGIngestion__init__ ienv rag_dir "research_reports") as [e|self] eqn:Hinit.
  { eexists _, false, []. rewrite app_nil_r. split; [reflexivity|]. by split. }
  assert (Hname : collection_name self = "research_reports").
  { unfold RAGIngestion__init__ in Hinit. repeat case_match; try done.
    by injection Hinit as <-. }
  rewrite add_report_run.
  destruct (ingest_outcome_success_flag split_text self env content topic
              (Some (state_metadata state)) default_chunk_size default_chunk_overlap)
    as [success Hsuccess].
  destruct (ingest_outcome_documents split_text self env content topic
              (Some (state_metadata state)) default_chunk_size default_chunk_overlap)
    as [chunks Hdocs].
  eexists _, success, _. split; [done|]. split; [done|].
  rewrite Hdocs. apply Forall_forall. intros doc Hin.
  rewrite !(make_documents_metadata _ _ _ _ Hin) by done.
  rewrite !doc_metadata_of_lookup. cbn [default from_option id].
  rewrite !state_metadata_no_defaults by auto. rewrite Hname.
  split; [done|]. split; [done|]. split; [done|].
  intros s ->. cbn [default from_option id state_metadata].
  rewrite lookup_insert_ne by done. by rewrite !lookup_insert_eq.
Qed.

End AutoIngestFacts.

(** ** [save_report_and_ingest] *)

Section SaveReportFacts.

Variable split_text : Z -> Z -> list string -> string -> string + list string.
Variable render_pdf : string -> string -> string.

Lemma md_pdf_paths_differ filename :
  "reports/" +:+ filename +:+ ".md" <> "reports/" +:+ filename +:+ ".pdf".
Proof.
  intros Heq. apply (inj (String.app "reports/")) in Heq.
  by apply (inj (String.app filename)) in Heq.
Qed.

Lemma not_too_short_to_save report :
  10 <= len (strip report) ->
  (String.eqb report "" || (len (strip report) <? 100)) && (len (strip report) <? 10)
  = false.
Proof.
  intros Hlen. apply andb_false_iff. right. apply Z.ltb_ge. lia.
Qed.

(** X18. A report whose trimmed length is below 10 is refused: the tool
    returns the too-short message, writes no file and ingests nothing,
    whatever the outside world does. *)
Theorem save_report_too_short senv topic report filename state w :
  len (strip report) < 10 ->
  save_report_and_ingest split_text render_pdf senv topic report filename state w
  = (inr too_short_to_save, w).
Proof.
  intros Hlen. unfold save_report_and_ingest.
  assert (H10 : (len (strip report) <? 10) = true) by (apply Z.ltb_lt; lia).
  assert (H100 : (len (strip report) <? 100) = true) by (apply Z.ltb_lt; lia).
  by rewrite H10, H100, orb_true_r.
Qed.

(** X19. When the directory and the Markdown file can be written, a report
    of trimmed length 10 or more is saved as it was given (not in its fixed
    form) under [reports/<filename>.md], a path without the timestamp, so a
    file saved before under the same name is replaced, whatever happens to
    the PDF and to the ingestion afterwards; the message begins with the
    success line. *)
Theorem save_report_writes_markdown senv topic report filename state w :
  10 <= len (strip report) ->
  reports_makedirs_fault senv = None ->
  markdown_write_fault senv = None ->
  exists message w',
    save_report_and_ingest split_text render_pdf senv topic report filename state w
    = (inr message, w') /\
    String.prefix "📄 Report saved successfully!" message = true /\
    files w' !! ("reports/" +:+ filename +:+ ".md") = Some report.
Proof.
  intros Hlen Hdir Hwrite. unfold save_report_and_ingest.
  rewrite not_too_short_to_save, Hdir, Hwrite by done.
  destruct (auto_ingest_report _ _ _ _ _ _ _ _) as [rag_result collection'].
  pose proof (md_pdf_paths_differ filename) as Hpaths.
  destruct (pdf_fault senv); eexists _, _; (split; [reflexivity|]); cbn [files];
    (split; [reflexivity|]).
  - apply lookup_insert_eq.
  - rewrite lookup_insert_ne by done. apply lookup_insert_eq.
Qed.

(** X20. A report of trimmed length between 10 and 99 is saved, and the
    message begins with the success line, but nothing is added to the
    collection: the ingestion refuses what the tool accepts. *)
Theorem save_report_short_not_ingested senv topic report filename state w :
  10 <= len (strip report) < 100 ->
  reports_makedirs_fault senv = None ->
  markdown_write_fault senv = None ->
  exists message w',
    save_report_and_ingest split_text render_pdf senv topic report filename state w
    = (inr message, w') /\
    String.prefix "📄 Report saved successfully!" message = true /\
    files w' !! ("reports/" +:+ filename +:+ ".md") = Some report /\
    collection w' = collection w.
Proof.
  intros Hlen Hdir Hwrite. unfold save_report_and_ingest.
  rewrite not_too_short_to_save, Hdir, Hwrite by lia.
  assert (Hrag : (auto_ingest_report split_text (rag_init_env senv) (rag_env senv)
                    report topic state None (collection w)).2 = collection w).
  { unfold auto_ingest_report, try_except, bind, lift, ret.
    destruct (RAGIngestion__init__ _ _ _) as [e|self]; [done|].
    rewrite add_report_run. unfold ingest_outcome.
    assert (Hshort : (len (strip report) <? 100) = true) by (apply Z.ltb_lt; lia).
    rewrite Hshort, orb_true_r. simpl. by rewrite app_nil_r. }
  destruct (auto_ingest_report _ _ _ _ _ _ _ _) as [rag_result collection'].
  simpl in Hrag. subst collection'.
  pose proof (md_pdf_paths_differ filename) as Hpaths.
  destruct (pdf_fault senv); eexists _, _; (split; [reflexivity|]); cbn [files collection];
    (split; [reflexivity|]); (split; [|done]).
  - apply lookup_insert_eq.
  - rewrite lookup_insert_ne by done. apply lookup_insert_eq.
Qed.

(** X21. What the tool returns, and the files that it writes, do not depend
    on the ingestion: two worlds that differ only in what the ingestion
    meets (directory configured or not, store reachable or not) give the
    same message, so the message does not tell whether the report was
    ingested. *)
Theorem save_report_message_ignores_ingestion
    senv senv' topic report filename state w :
  reports_makedirs_fault senv' = reports_makedirs_fault senv ->
  strftime_now senv' = strftime_now senv ->
  markdown_write_fault senv' = markdown_write_fault senv ->
  pdf_fault senv' = pdf_fault senv ->
  (save_report_and_ingest split_text render_pdf senv' topic report filename state w).1
  = (save_report_and_ingest split_text render_pdf senv topic report filename state w).1 /\
  files (save_report_and_ingest split_text render_pdf senv' topic report filename state w).2
  = files (save_report_and_ingest split_text render_pdf senv topic report filename state w).2.
Proof.
  intros Hdir Hnow Hwrite Hpdf. unfold save_report_and_ingest.
  rewrite Hdir, Hnow, Hwrite, Hpdf.
  destruct (_ && _); [done|].
  destruct (reports_makedirs_fault senv); [done|].
  destruct (markdown_write_fault senv); [done|].
  destruct (auto_ingest_report _ (rag_init_env senv') _ _ _ _ _ _) as [r' c'].
  destruct (auto_ingest_report _ (rag_init_env senv) _ _ _ _ _ _) as [r c].
  by destruct (pdf_fault senv).
Qed.

End SaveReportFacts.

(** ** [ingest_file] *)

Lemma py_replace_go_absent old new s :
  str_contains old s = false -> py_replace_go old new 0 s = s.
Proof.
  induction s as [|c s IH]; [done|].
  cbn [str_contains py_replace_go]. intros [Hhere Hlater]%orb_false_iff.
  rewrite Hhere. by rewrite IH.
Qed.

Lemma split_lines_hd_line line : no_newline line = true -> hd "" (split_lines line) = line.
Proof. intros Hline. by rewrite split_lines_line. Qed.

Lemma prefix_hash_space s : String.prefix "# " (String "#" (String " " s)) = true.
Proof. by destruct s. Qed.

Lemma py_replace_hash_space s :
  py_replace "# " "" ("# " +:+ s) = py_replace "# " "" s.
Proof.
  unfold py_replace.
  change ("# " +:+ s) with (String "#" (String " " s)).
  cbn [py_replace_go]. by rewrite (prefix_hash_space s).
Qed.

(** X22. A file whose content begins with ["# "], followed by a title in
    which ["# "] does not occur again, is ingested under that title without
    the whitespace around it, whatever the name of the file is. *)
Theorem ingest_topic_title filepath title body :
  no_newline title = true ->
  str_contains "# " title = false ->
  ingest_topic filepath ("# " +:+ title +:+ NL +:+ body) = strip title /\
  ingest_topic filepath ("# " +:+ title) = strip title.
Proof.
  intros Hline Habsent. unfold ingest_topic.
  assert (Hfirst : no_newline ("# " +:+ title) = true) by exact Hline.
  change ("# " +:+ title +:+ NL +:+ body)
    with (String "#" (String " " (title +:+ NL +:+ body))).
  change ("# " +:+ title) with (String "#" (String " " title)) in *.
  rewrite !prefix_hash_space.
  change (String "#" (String " " (title +:+ NL +:+ body)))
    with ("# " +:+ title +:+ NL +:+ body).
  change (String "#" (String " " title)) with ("# " +:+ title) in *.
  split.
  - rewrite <- str_append_assoc, split_lines_append by done. cbn [hd].
    rewrite py_replace_hash_space. unfold py_replace.
    by rewrite py_replace_go_absent.
  - rewrite split_lines_hd_line by done.
    rewrite py_replace_hash_space. unfold py_replace.
    by rewrite py_replace_go_absent.
Qed.

Section IngestFileFacts.

Variable split_text : Z -> Z -> list string -> string -> string + list string.

(** X23. [ingest_file] never raises, and every chunk that it persists
    carries the path of the file as ['source_file'],
    [manual_ingestion = True], the source ["research_report"] and, as its
    topic, the topic derived from the file; a path that does not exist
    leaves the collection as it is. *)
Theorem ingest_file_metadata fenv filepath st :
  exists printed docs,
    ingest_file split_text fenv filepath st = (printed, st ++ docs) /\
    (path_exists fenv = false -> docs = []) /\
    forall content, read_file fenv = inr content ->
      Forall (fun doc =>
                metadata doc !! "topic" = Some (VStr (ingest_topic filepath content)) /\
                metadata doc !! "source_file" = Some (VStr filepath) /\
                metadata doc !! "manual_ingestion" = Some (VBool true) /\
                metadata doc !! "source" = Some (VStr "research_report"))
             docs.
Proof.
  unfold ingest_file. destruct (path_exists fenv); cbn [negb].
  2:{ eexists _, []. rewrite app_nil_r. split; [done|]. split; [done|]. by constructor. }
  unfold ingest_file_body, try_except, bind, lift, ret.
  destruct (read_file fenv) as [e|content].
  { eexists _, []. rewrite app_nil_r. split; [done|]. split; [done|]. done. }
  destruct (RAGIngestion__init__ _ _ _) as [e|rag].
  { eexists _, []. rewrite app_nil_r. split; [done|]. split; [done|]. by constructor. }
  rewrite add_report_run.
  set (given := {[ "source_file" := VStr filepath; "manual_ingestion" := VBool true ]}
                : gmap string pyval).
  destruct (ingest_outcome_success_flag split_text rag (file_env fenv) content
              (ingest_topic filepath content) (Some given)
              default_chunk_size default_chunk_overlap) as [success Hsuccess].
  destruct (ingest_outcome_documents split_text rag (file_env fenv) content
              (ingest_topic filepath content) (Some given)
              default_chunk_size default_chunk_overlap) as [chunks Hdocs].
  assert (Hmeta : Forall (fun doc =>
            metadata doc !! "topic" = Some (VStr (ingest_topic filepath content)) /\
            metadata doc !! "source_file" = Some (VStr filepath) /\
            metadata doc !! "manual_ingestion" = Some (VBool true) /\
            metadata doc !! "source" = Some (VStr "research_report"))
          (ingest_outcome split_text rag (file_env fenv) content
             (ingest_topic filepath content) (Some given)
             default_chunk_size default_chunk_overlap).2).
  { rewrite Hdocs. apply Forall_forall. intros doc Hin.
    rewrite !(make_documents_metadata _ _ _ _ Hin) by done.
    by rewrite !doc_metadata_of_lookup. }
  rewrite Hsuccess. cbn [getitem]. unfold ret at 1. cbn [truthy].
  destruct success.
  - assert (Hadded : is_Some ((ingest_outcome split_text rag (file_env fenv) content
                       (ingest_topic filepath content) (Some given)
                       default_chunk_size default_chunk_overlap).1 !! "chunks_added")).
    { apply ingest_outcome_success in Hsuccess as (? & _ & _ & _ & -> & _). by eexists. }
    destruct Hadded as [n Hn]. rewrite Hn. cbn [getitem]. unfold ret.
    eexists _, _. split; [done|]. split; [done|]. by intros ? [= <-].
  - eexists _, _. split; [done|]. split; [done|]. by intros ? [= <-].
Qed.

End IngestFileFacts.

(** ** The rest of the code run on concrete inputs *)

(** X1 on a text of ten characters and the limit 4. *)
Lemma truncate_output_length_witness :
  0 <= 4 /\
  (len "abcdefghij" <= 4 -> _truncate_output "abcdefghij" 4 = "abcdefghij") /\
  (4 < len "abcdefghij" ->
   str_prefix (Z.to_nat 4) (_truncate_output "abcdefghij" 4)
   = str_prefix (Z.to_nat 4) "abcdefghij" /\
   len (_truncate_output "abcdefghij" 4) = 4 + 39 + len (str_of_int 4)).
Proof.
  split; [lia|]. apply truncate_output_length. lia.
Defined.

(** X2 on the same text. *)
Lemma truncate_output_idempotent_witness :
  0 <= 4 /\
  _truncate_output (_truncate_output "abcdefghij" 4) 4 = _truncate_output "abcdefghij" 4.
Proof.
  split; [lia|]. apply truncate_output_idempotent. lia.
Defined.

(** X3 on two lines of plain text. *)
Lemma fix_markdown_hierarchy_no_heading_witness :
  Forall (fun line => is_heading line = false) (split_lines ("intro" +:+ NL +:+ "text")) /\
  fix_markdown_hierarchy ("intro" +:+ NL +:+ "text")
  = "# Research Report" +:+ NL +:+ NL +:+ ("intro" +:+ NL +:+ "text").
Proof.
  assert (Hnone : Forall (fun line => is_heading line = false)
                    (split_lines ("intro" +:+ NL +:+ "text"))).
  { vm_compute. repeat constructor. }
  split; [exact Hnone|]. exact (fix_markdown_hierarchy_no_heading _ Hnone).
Defined.

(** X4 on a text whose first heading has three ['#']. *)
Lemma fix_markdown_hierarchy_first_heading_witness :
  split_lines markdown0 = ["intro"] ++ "### Title  " :: ["## more"] /\
  Forall (fun line => is_heading line = false) ["intro"] /\
  is_heading "### Title  " = true /\
  (heading_level "### Title  " <= 1 -> fix_markdown_hierarchy markdown0 = markdown0) /\
  (1 < heading_level "### Title  " ->
   fix_markdown_hierarchy markdown0
   = join_lines (["intro"] ++ ("# " +:+ strip (lstrip_hash "### Title  ")) :: ["## more"])).
Proof.
  assert (Hsplit : split_lines markdown0 = ["intro"] ++ "### Title  " :: ["## more"])
    by reflexivity.
  assert (Hpre : Forall (fun line => is_heading line = false) ["intro"])
    by (repeat constructor).
  assert (Hline : is_heading "### Title  " = true) by reflexivity.
  split; [exact Hsplit|]. split; [exact Hpre|]. split; [exact Hline|].
  exact (fix_markdown_hierarchy_first_heading markdown0 _ _ _ Hsplit Hpre Hline).
Defined.

(** X6 with a splitter that raises. *)
Lemma add_report_exception_result_witness :
  100 <= len (strip report_b) /\
  failing_splitter 1000 200 separators report_b = inl "splitter failed" /\
  exists result,
    add_report failing_splitter rag0 env_ok report_b "B" None 1000 200 store_b
    = (inr result, store_b) /\
    result !! "success" = Some (VBool false) /\
    result !! "error" = Some (VStr "splitter failed") /\
    result !! "topic" = Some (VStr "B") /\
    result !! "message" = Some (VStr ("Failed to add report: " +:+ "splitter failed")) /\
    result !! "chunks_added" = None.
Proof.
  assert (Hlen : 100 <= len (strip report_b)) by (vm_compute; discriminate).
  split; [exact Hlen|]. split; [reflexivity|].
  apply add_report_exception_result; [exact Hlen|]. left. reflexivity.
Defined.

(** X7 with a splitter that returns blank chunks. *)
Lemma add_report_no_valid_chunks_witness :
  100 <= len (strip report_b) /\
  blank_splitter 1000 200 separators report_b = inr ["   "; ""; NL] /\
  Forall (fun chunk => strip chunk = "") ["   "; ""; NL] /\
  exists result,
    (forall env',
        add_report blank_splitter rag0 env' report_b "B" None 1000 200 store_b
        = (inr result, store_b)) /\
    result !! "success" = Some (VBool false) /\
    result !! "error" = Some (VStr "No valid text chunks could be generated from report").
Proof.
  assert (Hlen : 100 <= len (strip report_b)) by (vm_compute; discriminate).
  assert (Hblank : Forall (fun chunk => strip chunk = "") ["   "; ""; NL])
    by (repeat constructor).
  split; [exact Hlen|]. split; [reflexivity|]. split; [exact Hblank|].
  exact (add_report_no_valid_chunks blank_splitter rag0 report_b "B" None 1000 200
           store_b _ Hlen eq_refl Hblank).
Defined.

(** X8 with the metadata [{'author': 'nami'}]. *)
Lemma add_report_caller_metadata_kept_witness :
  exists result st',
    add_report chunker_split_text rag0 env_ok report_long "A"
      (Some {[ "author" := VStr "nami" ]}) 1000 200 store_b = (inr result, st') /\
    ({[ "author" := VStr "nami" ]} : gmap string pyval) !! "author" = Some (VStr "nami") /\
    VStr "nami" <> VNone /\
    "author" <> "chunk_id" /\ "author" <> "total_chunks" /\
    exists docs,
      st' = store_b ++ docs /\
      Forall (fun doc => metadata doc !! "author" = Some (VStr "nami")) docs.
Proof.
  pose proof (add_report_run chunker_split_text rag0 env_ok report_long "A"
                (Some {[ "author" := VStr "nami" ]}) 1000 200 store_b) as Hrun.
  assert (Hv : VStr "nami" <> VNone) by discriminate.
  assert (Hid : "author" <> "chunk_id") by discriminate.
  assert (Htot : "author" <> "total_chunks") by discriminate.
  eexists _, _. split; [exact Hrun|]. split; [reflexivity|]. split; [exact Hv|].
  split; [exact Hid|]. split; [exact Htot|].
  exact (add_report_caller_metadata_kept chunker_split_text rag0 env_ok report_long "A"
           _ 1000 200 store_b _ _ "author" (VStr "nami") Hrun eq_refl Hv Hid Htot).
Defined.

(** X10 on the report of 1500 characters, ingested twice. *)
Lemma add_report_twice_duplicates_witness :
  exists result st',
    add_report chunker_split_text rag0 env_ok report_long "A" None 1000 200 store_b
    = (inr result, st') /\
    succeeded result /\
    chroma_fault env_ok = None /\ add_fault env_ok = None /\
    exists result' docs docs',
      st' = store_b ++ docs /\
      add_report chunker_split_text rag0 env_ok report_long "A" None 1000 200 st'
      = (inr result', store_b ++ docs ++ docs') /\
      succeeded result' /\
      result' !! "chunks_added" = result !! "chunks_added" /\
      page_content <$> docs' = page_content <$> docs /\
      (fun doc => metadata doc !! "chunk_id") <$> docs'
      = (fun doc => metadata doc !! "chunk_id") <$> docs /\
      docs <> [].
Proof.
  pose proof (add_report_run chunker_split_text rag0 env_ok report_long "A" None 1000 200
                store_b) as Hrun.
  assert (Hok : succeeded
                  (ingest_outcome chunker_split_text rag0 env_ok report_long "A" None
                     1000 200).1) by (vm_compute; reflexivity).
  eexists _, _. split; [exact Hrun|]. split; [exact Hok|].
  split; [reflexivity|]. split; [reflexivity|].
  exact (add_report_twice_duplicates chunker_split_text rag0 env_ok env_ok report_long "A"
           None 1000 200 store_b _ _ Hrun Hok eq_refl eq_refl).
Defined.

(** X11 on a batch whose second report has no ['content']. *)
Lemma add_multiple_reports_missing_key_witness :
  Forall (fun er => has_content_and_topic er.2)
    [(env_ok, mkReport (Some report_a) (Some "A") None)] /\
  (rep_content (mkReport None (Some "B") None) = None \/
   rep_topic (mkReport None (Some "B") None) = None) /\
  add_multiple_reports chunker_split_text rag0
    ([(env_ok, mkReport (Some report_a) (Some "A") None)]
     ++ (env_ok, mkReport None (Some "B") None)
     :: [(env_ok, mkReport (Some report_b) (Some "B") None)]) []
  = (inl "'content'",
     [] ++ concat ((fun er => (add_one_report chunker_split_text rag0 er []).2)
                     <$> [(env_ok, mkReport (Some report_a) (Some "A") None)])).
Proof.
  assert (Hpre : Forall (fun er => has_content_and_topic er.2)
                   [(env_ok, mkReport (Some report_a) (Some "A") None)]).
  { repeat constructor; by eexists. }
  assert (Hmissing : rep_content (mkReport None (Some "B") None) = None \/
                     rep_topic (mkReport None (Some "B") None) = None) by (by left).
  split; [exact Hpre|]. split; [exact Hmissing|].
  exact (add_multiple_reports_missing_key chunker_split_text rag0 _ env_ok _ _ []
           Hpre Hmissing).
Defined.

(** X12 on the collection of three chunks. *)
Lemma list_ingested_reports_distinct_topics_witness :
  store_fault env_ok = None /\
  exists reports,
    list_ingested_reports length_rank rag0 env_ok store_ab = (inr reports, store_ab) /\
    (length reports <= 100)%nat /\
    Forall (fun r => truthy (dict_get r "topic") = true /\
                     dom r = {[ "topic"; "created_at"; "chunks" ]}) reports /\
    (forall i j r r',
        (i < j)%nat -> reports !! i = Some r -> reports !! j = Some r' ->
        py_eqb (dict_get r "topic") (dict_get r' "topic") = false).
Proof.
  split; [reflexivity|]. apply list_ingested_reports_distinct_topics. reflexivity.
Defined.

(** X13 on the same collection. *)
Lemma list_ingested_reports_first_seen_witness :
  store_fault env_ok = None /\
  exists reports,
    list_ingested_reports length_rank rag0 env_ok store_ab = (inr reports, store_ab) /\
    (forall r, r ∈ reports ->
       exists pre doc post,
         take 100 (length_rank "research" store_ab) = pre ++ doc :: post /\
         r = report_entry doc /\
         Forall (fun d => py_eqb (topic_of d) (topic_of doc) = false) pre) /\
    (forall doc, doc ∈ take 100 (length_rank "research" store_ab) ->
       truthy (topic_of doc) = true ->
       exists r, r ∈ reports /\ py_eqb (dict_get r "topic") (topic_of doc) = true).
Proof.
  split; [reflexivity|].
  exact (list_ingested_reports_first_seen length_rank rag0 env_ok store_ab eq_refl).
Defined.

(** The reports listed for that collection: B, ranked first, then A. *)
Example list_ingested_reports_store_ab :
  (fun r => (r !! "topic", r !! "chunks"))
    <$> default [] (returned (list_ingested_reports length_rank rag0 env_ok store_ab))
  = [(Some (VStr "B"), Some (VInt 1)); (Some (VStr "A"), Some (VInt 2))].
Proof. vm_compute. reflexivity. Qed.

(** X14 on the same collection. *)
Lemma verify_ingestion_sound_witness :
  (forall query store, length_rank query store ≡ₚ store) /\
  exists verdict st',
    verify_ingestion length_rank rag0 env_ok "A" None store_ab = (inr verdict, st') /\
    verdict !! "found" = Some (VBool true) /\
    st' = store_ab /\ exists doc, doc ∈ store_ab /\ has_topic "A" doc.
Proof.
  split; [exact length_rank_permutation|].
  pose proof (verify_ingestion_run length_rank rag0 env_ok "A" None store_ab) as Hrun.
  change (store_fault env_ok) with (@None string) in Hrun. cbv iota zeta in Hrun.
  eexists _, _. split; [exact Hrun|].
  assert (Hfound : verify_result
                     (filter (has_topic "A")
                        (take 3 (length_rank (search_query_of "A" None) store_ab)))
                     (take 3 (length_rank (search_query_of "A" None) store_ab))
                   !! "found" = Some (VBool true)) by (vm_compute; reflexivity).
  split; [exact Hfound|].
  exact (verify_ingestion_sound length_rank length_rank_permutation rag0 env_ok "A" None
           store_ab _ _ Hrun Hfound).
Defined.

(** X15 on the report of 1500 characters. *)
Lemma list_after_add_witness :
  (forall query store, length_rank query store ≡ₚ store) /\
  exists result st',
    add_report chunker_split_text rag0 env_ok report_long "A" None 1000 200 []
    = (inr result, st') /\
    succeeded result /\
    store_fault env_ok = None /\
    exists n,
      result !! "chunks_added" = Some (VInt n) /\
      list_ingested_reports length_rank rag0 env_ok st'
      = (inr (if String.eqb "A" "" then []
              else [ {[ "topic" := VStr "A";
                        "created_at" := VStr (now_iso env_ok);
                        "chunks" := VInt n ]} ]),
         st').
Proof.
  split; [exact length_rank_permutation|].
  pose proof (add_report_run chunker_split_text rag0 env_ok report_long "A" None 1000 200
                []) as Hrun.
  assert (Hok : succeeded
                  (ingest_outcome chunker_split_text rag0 env_ok report_long "A" None
                     1000 200).1) by (vm_compute; reflexivity).
  eexists _, _. split; [exact Hrun|]. split; [exact Hok|]. split; [reflexivity|].
  exact (list_after_add chunker_split_text length_rank length_rank_permutation
           rag0 env_ok env_ok report_long "A" 1000 200 _ _ Hrun Hok eq_refl).
Defined.

(** X16 with no directory at all. *)
Lemma auto_ingest_report_not_configured_witness :
  (str_or None (getenv_RAG_DIR ienv_unset) = None \/
   str_or None (getenv_RAG_DIR ienv_unset) = Some "") /\
  auto_ingest_report chunker_split_text ienv_unset env_ok report_a "A" None None store_b
  = (inr {[ "success" := VBool false; "error" := VStr RAG_DIR_not_configured ]}, store_b).
Proof.
  assert (Hdir : str_or None (getenv_RAG_DIR ienv_unset) = None \/
                 str_or None (getenv_RAG_DIR ienv_unset) = Some "") by (by left).
  split; [exact Hdir|].
  exact (auto_ingest_report_not_configured chunker_split_text ienv_unset env_ok report_a "A"
           None None store_b Hdir).
Defined.

(** The chunks of a report ingested with a [state] that has a quality score
    only. *)
Example auto_ingest_report_state :
  (fun doc => (metadata doc !! "topic", metadata doc !! "quality_score",
               metadata doc !! "confidence_scores", metadata doc !! "iteration_count"))
    <$> (auto_ingest_report chunker_split_text ienv_ok env_ok report_a "A"
           (Some (mkStateView (Some (VInt 8)) None None None)) None []).2
  = [(Some (VStr "A"), Some (VInt 8), Some (VStr "{}"), Some (VInt 0))].
Proof. vm_compute. reflexivity. Qed.

(** X18 on a report of four characters. *)
Lemma save_report_too_short_witness :
  len (strip "tiny") < 10 /\
  save_report_and_ingest chunker_split_text plain_pdf senv_ok "T" "tiny" "tiny" None world0
  = (inr too_short_to_save, world0).
Proof.
  split; [reflexivity|]. apply save_report_too_short. reflexivity.
Defined.

(** X19 on a report of 420 characters saved over an older file. *)
Lemma save_report_writes_markdown_witness :
  10 <= len (strip report_a) /\
  reports_makedirs_fault senv_ok = None /\
  markdown_write_fault senv_ok = None /\
  exists message w',
    save_report_and_ingest chunker_split_text plain_pdf senv_ok "A" report_a "alpha" None
      world0 = (inr message, w') /\
    String.prefix "📄 Report saved successfully!" message = true /\
    files w' !! ("reports/" +:+ "alpha" +:+ ".md") = Some report_a.
Proof.
  assert (Hlen : 10 <= len (strip report_a)) by (vm_compute; discriminate).
  split; [exact Hlen|]. split; [reflexivity|]. split; [reflexivity|].
  exact (save_report_writes_markdown chunker_split_text plain_pdf senv_ok "A" report_a
           "alpha" None world0 Hlen eq_refl eq_refl).
Defined.

(** X20 on a report of 60 characters. *)
Lemma save_report_short_not_ingested_witness :
  10 <= len (strip report_brief) < 100 /\
  reports_makedirs_fault senv_ok = None /\
  markdown_write_fault senv_ok = None /\
  exists message w',
    save_report_and_ingest chunker_split_text plain_pdf senv_ok "brief" report_brief
      "brief" None world0 = (inr message, w') /\
    String.prefix "📄 Report saved successfully!" message = true /\
    files w' !! ("reports/" +:+ "brief" +:+ ".md") = Some report_brief /\
    collection w' = collection world0.
Proof.
  assert (Hlen : 10 <= len (strip report_brief) < 100)
    by (split; vm_compute; [discriminate|reflexivity]).
  split; [exact Hlen|]. split; [reflexivity|]. split; [reflexivity|].
  exact (save_report_short_not_ingested chunker_split_text plain_pdf senv_ok "brief"
           report_brief "brief" None world0 Hlen eq_refl eq_refl).
Defined.

(** X21: the same message with the store reachable and without any
    directory configured, while the collection differs. *)
Lemma save_report_message_ignores_ingestion_witness :
  reports_makedirs_fault senv_no_rag = reports_makedirs_fault senv_ok /\
  strftime_now senv_no_rag = strftime_now senv_ok /\
  markdown_write_fault senv_no_rag = markdown_write_fault senv_ok /\
  pdf_fault senv_no_rag = pdf_fault senv_ok /\
  (save_report_and_ingest chunker_split_text plain_pdf senv_no_rag "A" report_a "alpha"
     None world0).1
  = (save_report_and_ingest chunker_split_text plain_pdf senv_ok "A" report_a "alpha"
       None world0).1 /\
  files (save_report_and_ingest chunker_split_text plain_pdf senv_no_rag "A" report_a
           "alpha" None world0).2
  = files (save_report_and_ingest chunker_split_text plain_pdf senv_ok "A" report_a
             "alpha" None world0).2.
Proof.
  split; [reflexivity|]. split; [reflexivity|]. split; [reflexivity|].
  split; [reflexivity|].
  exact (save_report_message_ignores_ingestion chunker_split_text plain_pdf
           senv_ok senv_no_rag "A" report_a "alpha" None world0
           eq_refl eq_refl eq_refl eq_refl).
Defined.

Example save_report_collections_differ :
  length (collection (save_report_and_ingest chunker_split_text plain_pdf senv_ok "A"
                        report_a "alpha" None world0).2) = 4%nat /\
  length (collection (save_report_and_ingest chunker_split_text plain_pdf senv_no_rag "A"
                        report_a "alpha" None world0).2) = 3%nat.
Proof. vm_compute. auto. Qed.

(** X22 on a title with whitespace around it. *)
Lemma ingest_topic_title_witness :
  no_newline "  The Title " = true /\
  str_contains "# " "  The Title " = false /\
  ingest_topic "docs/my_report.md" ("# " +:+ "  The Title " +:+ NL +:+ "body")
  = strip "  The Title " /\
  ingest_topic "docs/my_report.md" ("# " +:+ "  The Title ") = strip "  The Title ".
Proof.
  split; [reflexivity|]. split; [reflexivity|].
  apply ingest_topic_title; reflexivity.
Defined.

Example ingest_topic_from_name :
  ingest_topic "docs/my_report.md" "no title here" = "my report" /\
  ingest_topic "docs/c.md" "# C# basics" = "Cbasics".
Proof. vm_compute. auto. Qed.
